(** * The I/O port dispatcher of the Magenta kernel

    A shallow embedding of [kernel/lib/magenta/io_port_dispatcher.cpp]:
    packets ([IOP_Packet]), the port ([IOPortDispatcher]) with its FIFO of
    packets and its set of observers, and the operations [Queue], [Wait],
    [Bind], [Unbind], [CancelObserver] and [on_zero_handles].

    Kernel objects live in one heap, a finite map from addresses to
    objects; [new] takes a fresh address and [delete] removes the entry.
    A [delete] of an address that holds no object is recorded as a fault.
    The methods of the port run on a [world]: the fields of the port, the
    heap, and the state trackers of the watched objects. *)

From stdpp Require Import gmap list.

#[local] Open Scope Z_scope.

(** ** Statuses, sizes, addresses *)

Definition mx_status_t := Z.
Definition mx_size_t := N.
Definition mx_signals_t := N.

(** Success is status zero; every error code differs from it. *)
Definition NO_ERROR : mx_status_t := 0.

(** Kernel addresses, user addresses. A null pointer is [None]. *)
Definition ptr := positive.
Definition uptr := Z.

(** [Handle*]: handles are compared by address only. *)
Definition handle_ptr := positive.

(** The conversion of an integer to C++ [bool]. *)
Definition bool_of_int (z : Z) : bool := negb (z =? 0).

(** ** What the file takes from the rest of the kernel

    The error codes of [err.h], the event primitive of [kernel/event.h],
    the user-copy routines, the state tracker of a watched object and the
    layout of [mx_packet_header_t] are declared outside this file; they
    are parameters of the development. *)
Class Kernel := {
  (* err.h *)
  ERR_NO_MEMORY : mx_status_t;
  ERR_NOT_SUPPORTED : mx_status_t;
  ERR_NOT_AVAILABLE : mx_status_t;
  ERR_NOT_ENOUGH_BUFFER : mx_status_t;
  ERR_BAD_HANDLE : mx_status_t;
  (* kernel/event.h: the state of an event, its initialisation with
     EVENT_FLAG_AUTOUNSIGNAL, and event_signal_etc, which returns the
     number of threads it woke *)
  event_t : Type;
  event_init : bool -> event_t;
  event_signal_etc : event_t -> bool -> mx_status_t -> Z * event_t;
  (* user memory and the two copy routines: each returns its status and
     what the destination holds afterwards *)
  user_mem : Type;
  magenta_copy_from_user :
    user_mem -> uptr -> list Byte.byte -> mx_size_t -> mx_status_t * list Byte.byte;
  copy_to_user :
    user_mem -> uptr -> list Byte.byte -> mx_size_t -> mx_status_t * user_mem;
  (* the content of freshly allocated memory *)
  uninitialized : mx_size_t -> list Byte.byte;
  (* sizeof(IOP_Packet), and the largest value of size_t *)
  sizeof_IOP_Packet : N;
  SIZE_MAX : N;
  (* mx_packet_header_t: the store to its [type] field *)
  MX_IO_PORT_PKT_TYPE_USER : Z;
  store_header_type : Z -> list Byte.byte -> list Byte.byte;
  (* the rights of a handle *)
  MX_RIGHT_DUPLICATE : Z;
  MX_RIGHT_TRANSFER : Z;
  MX_RIGHT_READ : Z;
  MX_RIGHT_WRITE : Z;
  (* magenta/state_tracker.h *)
  StateTracker : Type;
  is_waitable : StateTracker -> bool;
  AddObserver : StateTracker -> ptr -> mx_status_t * StateTracker;
  RemoveObserver : StateTracker -> ptr -> StateTracker
}.

(** ** Objects *)

(** [IOP_Packet]: the payload length and, placed right after the object in
    the same allocation, the payload. *)
Record IOP_Packet := mkPacket {
  data_size : mx_size_t;
  payload : list Byte.byte
}.

(** The lifecycle flag of an observer. *)
Inductive State := NEW | UNBOUND | CANCELLED.

#[global] Instance State_eq_dec : EqDecision State.
Proof. solve_decision. Defined.

(** [IOPortObserver]: the watched handle, the signals of interest, the
    caller's key and the lifecycle flag. *)
Record IOPortObserver := mkObserver {
  get_handle : handle_ptr;
  get_signals : mx_signals_t;
  get_key : N;
  get_state : State
}.

Inductive object :=
| ObjPacket (pk : IOP_Packet)
| ObjObserver (ob : IOPortObserver).

Inductive fault :=
| BadDelete (p : ptr)
| NullTracker (h : handle_ptr).

Section Dispatcher.
Context `{K : Kernel}.

(** The fields of [IOPortDispatcher]. *)
Record IOPortDispatcher := mkDispatcher {
  options_ : N;
  no_clients_ : bool;
  packets_ : list ptr;
  observers_ : list ptr;
  event_ : event_t
}.

Record world := mkWorld {
  port : IOPortDispatcher;
  heap : gmap ptr object;
  trackers : gmap handle_ptr StateTracker;
  faults : list fault;
  yields : nat
}.

Definition set_port (d : IOPortDispatcher) (w : world) : world :=
  mkWorld d (heap w) (trackers w) (faults w) (yields w).
Definition set_heap (h : gmap ptr object) (w : world) : world :=
  mkWorld (port w) h (trackers w) (faults w) (yields w).
Definition set_trackers (t : gmap handle_ptr StateTracker) (w : world) : world :=
  mkWorld (port w) (heap w) t (faults w) (yields w).
Definition add_fault (f : fault) (w : world) : world :=
  mkWorld (port w) (heap w) (trackers w) (faults w ++ [f]) (yields w).
Definition thread_yield (w : world) : world :=
  mkWorld (port w) (heap w) (trackers w) (faults w) (S (yields w)).

Definition set_no_clients (b : bool) (d : IOPortDispatcher) : IOPortDispatcher :=
  mkDispatcher (options_ d) b (packets_ d) (observers_ d) (event_ d).
Definition set_packets (q : list ptr) (d : IOPortDispatcher) : IOPortDispatcher :=
  mkDispatcher (options_ d) (no_clients_ d) q (observers_ d) (event_ d).
Definition set_observers (o : list ptr) (d : IOPortDispatcher) : IOPortDispatcher :=
  mkDispatcher (options_ d) (no_clients_ d) (packets_ d) o (event_ d).
Definition set_event (e : event_t) (d : IOPortDispatcher) : IOPortDispatcher :=
  mkDispatcher (options_ d) (no_clients_ d) (packets_ d) (observers_ d) e.

(** ** The heap *)

(** [new]: the object is placed at an address that holds none. *)
Definition heap_new (o : object) (w : world) : ptr * world :=
  let p := fresh (dom (heap w)) in (p, set_heap (<[p := o]> (heap w)) w).

(** [delete] of the object at [p]; an address that holds no object is
    recorded as a fault and the heap is left as it is. *)
Definition heap_delete (p : ptr) (w : world) : world :=
  match heap w !! p with
  | Some _ => set_heap (delete p (heap w)) w
  | None => add_fault (BadDelete p) w
  end.

Definition live (p : ptr) (w : world) : Prop := is_Some (heap w !! p).

(** ** IOP_Packet *)

Definition set_payload (p : ptr) (bytes : list Byte.byte) (w : world) : world :=
  match heap w !! p with
  | Some (ObjPacket pk) =>
      set_heap (<[p := ObjPacket (mkPacket (data_size pk) bytes)]> (heap w)) w
  | _ => w
  end.

Definition get_payload (p : ptr) (w : world) : list Byte.byte :=
  match heap w !! p with
  | Some (ObjPacket pk) => payload pk
  | _ => []
  end.

(** The number of bytes that [Alloc] asks for: [sizeof(IOP_Packet) + size]
    in the arithmetic of [size_t], where the sum wraps. *)
Definition alloc_bytes (size : mx_size_t) : N :=
  ((sizeof_IOP_Packet + size) mod (SIZE_MAX + 1))%N.

(** The block that [Alloc] asks for has room for the object and for a
    payload of [size] bytes: the sum has not wrapped. The heap of this
    development holds whole objects, so what is said of the block that
    [Alloc] returns is said of such sizes. *)
Definition block_fits (size : mx_size_t) : Prop :=
  alloc_bytes size = (sizeof_IOP_Packet + size)%N.

(** [IOP_Packet::Alloc]; [ac] is what [AllocChecker::check] reports. The
    packet is constructed with the payload length [size], and its payload
    is not initialised. *)
Definition Alloc (ac : bool) (size : mx_size_t) (w : world) : option ptr * world :=
  if negb ac then (None, w)
  else
    let '(mem, w1) := heap_new (ObjPacket (mkPacket size (uninitialized size))) w in
    (Some mem, w1).

(** [IOP_Packet::Make]: the payload is copied from kernel memory. *)
Definition Make (ac : bool) (data : list Byte.byte) (size : mx_size_t) (w : world)
  : option ptr * world :=
  match Alloc ac size w with
  | (None, w1) => (None, w1)
  | (Some pk, w1) => (Some pk, set_payload pk (take (N.to_nat size) data) w1)
  end.

(** [IOP_Packet::MakeFromUser]: the payload is copied from user memory and
    the type of its header is overwritten. *)
Definition MakeFromUser (ac : bool) (m : user_mem) (data : uptr) (size : mx_size_t)
  (w : world) : option ptr * world :=
  match Alloc ac size w with
  | (None, w1) => (None, w1)
  | (Some pk, w1) =>
      let '(status, header) := magenta_copy_from_user m data (get_payload pk w1) size in
      let w2 := set_payload pk (store_header_type MX_IO_PORT_PKT_TYPE_USER header) w1 in
      (if status =? NO_ERROR then Some pk else None, w2)
  end.

(** [IOP_Packet::Delete]. *)
Definition Delete (packet : ptr) (w : world) : world := heap_delete packet w.

(** [IOP_Packet::CopyToUser]: [size] is the value behind the size pointer
    on entry; the result is the returned [bool], the value behind the size
    pointer on exit and the user memory. *)
Definition CopyToUser (this : IOP_Packet) (data : uptr) (size : mx_size_t) (m : user_mem)
  : bool * mx_size_t * user_mem :=
  if (size <? data_size this)%N then (bool_of_int ERR_NOT_ENOUGH_BUFFER, size, m)
  else
    let '(st, m1) := copy_to_user m data (payload this) (data_size this) in
    (st =? NO_ERROR, data_size this, m1).

(** ** The port *)

(** The constructor: no packets, no observers, clients present, and the
    event initialised unsignalled. *)
Definition IOPortDispatcher_ctor (options : N) : IOPortDispatcher :=
  mkDispatcher options false [] [] (event_init false).

Definition kDefaultIOPortRights : Z :=
  Z.lor (Z.lor (Z.lor MX_RIGHT_DUPLICATE MX_RIGHT_TRANSFER) MX_RIGHT_READ) MX_RIGHT_WRITE.

(** [IOPortDispatcher::Create]: the status, and on success the dispatcher
    and its rights. *)
Definition Create (ac : bool) (options : N)
  : mx_status_t * option (IOPortDispatcher * Z) :=
  if negb ac then (ERR_NO_MEMORY, None)
  else (NO_ERROR, Some (IOPortDispatcher_ctor options, kDefaultIOPortRights)).

(** The loop of [FreePackets_NoLock] over the packets it pops, front first. *)
Fixpoint free_each (q : list ptr) (w : world) : world :=
  match q with
  | [] => w
  | packet :: rest => free_each rest (Delete packet w)
  end.

Definition FreePackets_NoLock (w : world) : world :=
  let q := packets_ (port w) in
  free_each q (set_port (set_packets [] (port w)) w).

Definition on_zero_handles (w : world) : world :=
  FreePackets_NoLock (set_port (set_no_clients true (port w)) w).

Definition push_back (packet : ptr) (q : list ptr) : list ptr := q ++ [packet].

(** [IOPortDispatcher::Queue]: the block under the lock, then the
    deletion of the packet on failure, then the yield when a thread was
    woken. *)
Definition Queue (packet : ptr) (w : world) : mx_status_t * world :=
  let wake_count := 0 in
  let status := NO_ERROR in
  let '(status, wake_count, w1) :=
    if no_clients_ (port w) then (ERR_NOT_AVAILABLE, wake_count, w)
    else
      let d1 := set_packets (push_back packet (packets_ (port w))) (port w) in
      let '(n, e) := event_signal_etc (event_ d1) false status in
      (status, n, set_port (set_event e d1) w) in
  if negb (status =? NO_ERROR) then (status, Delete packet w1)
  else (NO_ERROR, if bool_of_int wake_count then thread_yield w1 else w1).

(** The locked block of one turn of the loop of [Wait]: the head packet is
    popped when there is one. *)
Definition Wait_locked (w : world) : option ptr * world :=
  match packets_ (port w) with
  | packet :: rest => (Some packet, set_port (set_packets rest (port w)) w)
  | [] => (None, w)
  end.

(** ** Observers *)

(** Removal of a node from the intrusive list. *)
Fixpoint erase (x : ptr) (l : list ptr) : list ptr :=
  match l with
  | [] => []
  | y :: l' => if decide (x = y) then l' else y :: erase x l'
  end.

(** [find_if] over the observers of the list, front first. *)
Fixpoint find_if (pred : IOPortObserver -> bool) (h : gmap ptr object) (l : list ptr)
  : option ptr :=
  match l with
  | [] => None
  | p :: l' =>
      match h !! p with
      | Some (ObjObserver ob) => if pred ob then Some p else find_if pred h l'
      | _ => find_if pred h l'
      end
  end.

(** Modelled from the spec: [IOPortObserver::SetState] is defined outside
    this file. The lifecycle flag leaves NEW exactly once, by an atomic
    compare-and-set; the call returns the state it found. [Unbind] calls
    it on an observer that [find_if] has just read; an address that holds
    no observer is not met there. *)
Definition SetState (observer : ptr) (new_state : State) (w : world) : State * world :=
  match heap w !! observer with
  | Some (ObjObserver ob) =>
      match get_state ob with
      | NEW =>
          (NEW,
           set_heap (<[observer := ObjObserver
                         (mkObserver (get_handle ob) (get_signals ob) (get_key ob) new_state)]>
                       (heap w)) w)
      | s => (s, w)
      end
  | _ => (NEW, w)
  end.

(** Modelled from the spec: the constructor of [IOPortObserver] is defined
    outside this file. An observer starts in NEW, with the handle, the
    signals and the key that [Bind] passes. *)
Definition IOPortObserver_ctor (handle : handle_ptr) (signals : mx_signals_t) (key : N)
  : IOPortObserver :=
  mkObserver handle signals key NEW.

(** [IOPortDispatcher::CancelObserver]. *)
Definition CancelObserver (observer : ptr) (w : world) : world :=
  let w1 := set_port (set_observers (erase observer (observers_ (port w))) (port w)) w in
  heap_delete observer w1.

(** [IOPortDispatcher::Bind]; a handle whose dispatcher has no state
    tracker has no entry in [trackers]. *)
Definition Bind (ac : bool) (handle : handle_ptr) (signals : mx_signals_t) (key : N)
  (w : world) : mx_status_t * world :=
  match trackers w !! handle with
  | None => (ERR_NOT_SUPPORTED, w)
  | Some state_tracker =>
      if negb (is_waitable state_tracker) then (ERR_NOT_SUPPORTED, w)
      else if negb ac then (ERR_NO_MEMORY, w)
      else
        let '(observer, w1) := heap_new (ObjObserver (IOPortObserver_ctor handle signals key)) w in
        let w2 := set_port (set_observers (observer :: observers_ (port w1)) (port w1)) w1 in
        let '(result, tracker1) := AddObserver state_tracker observer in
        let w3 := set_trackers (<[handle := tracker1]> (trackers w2)) w2 in
        if negb (result =? NO_ERROR) then (result, CancelObserver observer w3)
        else (NO_ERROR, w3)
  end.

(** The test that [Unbind] searches the observers with. *)
Definition matches (handle : handle_ptr) (key : N) (ob : IOPortObserver) : bool :=
  bool_decide (handle = get_handle ob) && bool_decide (key = get_key ob).

(** [IOPortDispatcher::Unbind]. *)
Definition Unbind (handle : handle_ptr) (key : N) (w : world) : mx_status_t * world :=
  match find_if (matches handle key) (heap w) (observers_ (port w)) with
  | None => (ERR_BAD_HANDLE, w)
  | Some observer =>
      let '(old, w1) := SetState observer UNBOUND w in
      if negb (bool_decide (old = NEW)) then (NO_ERROR, w1)
      else
        let w2 := set_port (set_observers (erase observer (observers_ (port w1))) (port w1)) w1 in
        let w3 :=
          match trackers w2 !! handle with
          | Some state_tracker =>
              set_trackers (<[handle := RemoveObserver state_tracker observer]> (trackers w2)) w2
          | None => add_fault (NullTracker handle) w2
          end in
        (NO_ERROR, heap_delete observer w3)
  end.

(** ** Runs of the port

    The operations that the threads of the system perform on the port and
    on its packets, each one taken as a whole: what an operation does to
    the fields of the port, it does in one block under the lock of the
    port. A call of [Wait] takes part in a run by the locked block of each
    turn of its loop. *)
Inductive op :=
| OpQueue (packet : ptr)
| OpWaitLocked
| OpBind (ac : bool) (handle : handle_ptr) (signals : mx_signals_t) (key : N)
| OpUnbind (handle : handle_ptr) (key : N)
| OpCancelObserver (observer : ptr)
| OpOnZeroHandles
| OpMake (ac : bool) (data : list Byte.byte) (size : mx_size_t)
| OpMakeFromUser (ac : bool) (m : user_mem) (data : uptr) (size : mx_size_t)
| OpDelete (packet : ptr).

Definition exec (o : op) (w : world) : world :=
  match o with
  | OpQueue packet => snd (Queue packet w)
  | OpWaitLocked => snd (Wait_locked w)
  | OpBind ac handle signals key => snd (Bind ac handle signals key w)
  | OpUnbind handle key => snd (Unbind handle key w)
  | OpCancelObserver observer => CancelObserver observer w
  | OpOnZeroHandles => on_zero_handles w
  | OpMake ac data size => snd (Make ac data size w)
  | OpMakeFromUser ac m data size => snd (MakeFromUser ac m data size w)
  | OpDelete packet => Delete packet w
  end.

(** What [Bind], [Unbind] and [CancelObserver] leave alone in the port:
    all but the set of observers. *)
Definition same_queue (d d' : IOPortDispatcher) : Prop :=
  no_clients_ d' = no_clients_ d
  /\ packets_ d' = packets_ d
  /\ event_ d' = event_ d
  /\ options_ d' = options_ d.

Definition run (ops : list op) (w : world) : world :=
  fold_left (fun w o => exec o w) ops w.

(** The states of a port: those of a run that starts at its construction. *)
Inductive reachable : world -> Prop :=
| reachable_ctor w options :
    port w = IOPortDispatcher_ctor options -> reachable w
| reachable_exec w o :
    reachable w -> reachable (exec o w).

(** ** Wait

    [event_wait_timeout] blocks the calling thread. When it returns, it
    reports a status, and the other threads have meanwhile performed some
    operations on the port. What the primitive itself does to the event
    while the thread waits is its own business and is not followed
    here. *)
Record wakeup := mkWakeup {
  wake_status : mx_status_t;
  wake_ops : list op
}.

(** The outcome of a call of [Wait]: it returned a status, with the packet
    stored through the out-parameter if one was, or the thread is still
    blocked in [event_wait_timeout]. *)
Inductive wait_result :=
| WaitReturned (status : mx_status_t) (packet : option ptr)
| WaitBlocked.

(** [IOPortDispatcher::Wait], against the returns of [event_wait_timeout]
    that the call gets to see. *)
Fixpoint Wait (wakes : list wakeup) (w : world) : wait_result * world :=
  match Wait_locked w with
  | (Some packet, w1) => (WaitReturned NO_ERROR (Some packet), w1)
  | (None, w1) =>
      match wakes with
      | [] => (WaitBlocked, w1)
      | wk :: rest =>
          let w2 := run (wake_ops wk) w1 in
          let st := wake_status wk in
          if negb (st =? NO_ERROR) then (WaitReturned st None, w2)
          else Wait rest w2
      end
  end.

(** The outcome of a call of [Wait] that returns [packet]. *)
Definition delivered (packet : ptr) : wait_result :=
  WaitReturned NO_ERROR (Some packet).

(** [n] calls of [Queue] in a row, and a number of calls of [Wait] in a
    row, each with the returns of the wait primitive it gets to see. *)
Fixpoint Queue_all (packets : list ptr) (w : world) : list mx_status_t * world :=
  match packets with
  | [] => ([], w)
  | p :: rest =>
      let '(st, w1) := Queue p w in
      let '(sts, w2) := Queue_all rest w1 in
      (st :: sts, w2)
  end.

Fixpoint Wait_all (calls : list (list wakeup)) (w : world) : list wait_result * world :=
  match calls with
  | [] => ([], w)
  | wakes :: rest =>
      let '(r, w1) := Wait wakes w in
      let '(rs, w2) := Wait_all rest w1 in
      (r :: rs, w2)
  end.

(** ** The destructor *)

Definition is_empty (l : list ptr) : bool :=
  match l with
  | [] => true
  | _ :: _ => false
  end.

(** [IOPortDispatcher::~IOPortDispatcher]: the packets still queued are
    freed; the result tells, in the order of the source, whether each of
    the two assertions holds. The event and the mutex that are destroyed
    at the end belong to the object that goes away. *)
Definition IOPortDispatcher_dtor (w : world) : bool * bool * world :=
  let w1 := FreePackets_NoLock w in
  (is_empty (observers_ (port w1)), is_empty (packets_ (port w1)), w1).


End Dispatcher.

Arguments IOPortDispatcher {K}.
Arguments world {K}.
Arguments wakeup {K}.
Arguments op {K}.

(** ** A kernel to run the definitions on

    An auto-unsignal event: a signal wakes one blocked thread if there is
    one, and latches otherwise. User memory is a finite map of the mapped
    bytes; a copy fails, moving nothing, when it leaves the mapped bytes.
    A state tracker takes a bounded number of observers. *)
Module Sample.

Record event := mkEvent { signaled : bool; blocked : nat }.

Definition signal (e : event) (reschedule : bool) (wait_result : mx_status_t)
  : Z * event :=
  if signaled e then (0, e)
  else match blocked e with
       | O => (0, mkEvent true O)
       | S n => (1, mkEvent false n)
       end.

Definition ERR_FAULT : mx_status_t := -40.

Definition mapped (m : gmap Z Byte.byte) (a : uptr) (size : mx_size_t) : bool :=
  forallb (fun i => bool_decide (is_Some (m !! (a + Z.of_nat i))))
          (seq 0 (N.to_nat size)).

Fixpoint write (m : gmap Z Byte.byte) (a : uptr) (bytes : list Byte.byte)
  : gmap Z Byte.byte :=
  match bytes with
  | [] => m
  | b :: rest => write (<[a := b]> m) (a + 1) rest
  end.

Definition to_user (m : gmap Z Byte.byte) (dst : uptr) (src : list Byte.byte)
  (size : mx_size_t) : mx_status_t * gmap Z Byte.byte :=
  if mapped m dst size then (NO_ERROR, write m dst (take (N.to_nat size) src))
  else (ERR_FAULT, m).

Definition from_user (m : gmap Z Byte.byte) (src : uptr) (dst : list Byte.byte)
  (size : mx_size_t) : mx_status_t * list Byte.byte :=
  if mapped m src size
  then (NO_ERROR,
        map (fun i => default Byte.x00 (m !! (src + Z.of_nat i))) (seq 0 (N.to_nat size)))
  else (ERR_FAULT, dst).

Definition store_type (t : Z) (header : list Byte.byte) : list Byte.byte :=
  <[8%nat := default Byte.x00 (Byte.of_N (Z.to_N (t mod 256)))]> header.

Record tracker := mkTracker {
  waitable : bool;
  capacity : nat;
  registered : list ptr
}.

Definition add_observer (t : tracker) (observer : ptr) : mx_status_t * tracker :=
  if (length (registered t) <? capacity t)%nat
  then (NO_ERROR, mkTracker (waitable t) (capacity t) (observer :: registered t))
  else (-5, t).

Definition remove_observer (t : tracker) (observer : ptr) : tracker :=
  mkTracker (waitable t) (capacity t) (erase observer (registered t)).

Definition kernel : Kernel := {|
  ERR_NO_MEMORY := -5;
  ERR_NOT_SUPPORTED := -24;
  ERR_NOT_AVAILABLE := -45;
  ERR_NOT_ENOUGH_BUFFER := -9;
  ERR_BAD_HANDLE := -42;
  event_t := event;
  event_init := fun initial => mkEvent initial O;
  event_signal_etc := signal;
  user_mem := gmap Z Byte.byte;
  magenta_copy_from_user := from_user;
  copy_to_user := to_user;
  uninitialized := fun size => replicate (N.to_nat size) Byte.x00;
  sizeof_IOP_Packet := 24;
  SIZE_MAX := 18446744073709551615;
  MX_IO_PORT_PKT_TYPE_USER := 0;
  store_header_type := store_type;
  MX_RIGHT_DUPLICATE := 1;
  MX_RIGHT_TRANSFER := 2;
  MX_RIGHT_READ := 4;
  MX_RIGHT_WRITE := 8;
  StateTracker := tracker;
  is_waitable := waitable;
  AddObserver := add_observer;
  RemoveObserver := remove_observer
|}.

(** A packet of eight bytes at address 1. *)
Definition packet8 : IOP_Packet :=
  mkPacket 8%N (replicate 8 Byte.x2a).

(** A port that has lost its clients, and the packet still allocated. *)
Definition closed_port : @world kernel :=
  mkWorld (@mkDispatcher kernel 0%N true [] [] (mkEvent false O))
          {[ 1%positive := ObjPacket packet8 ]} ∅ [] 0.

(** A port just constructed, with three packets allocated. *)
Definition fresh_port : @world kernel :=
  mkWorld (@IOPortDispatcher_ctor kernel 0)
          (<[ 1%positive := ObjPacket packet8 ]>
            (<[ 2%positive := ObjPacket packet8 ]>
              {[ 3%positive := ObjPacket packet8 ]})) ∅ [] 0.

(** A port with one thread blocked in [Wait] and no packet queued. *)
Definition waited_port : @world kernel :=
  mkWorld (@mkDispatcher kernel 0%N false [] [] (mkEvent false 1))
          {[ 1%positive := ObjPacket packet8 ]} ∅ [] 0.

(** A port with two observers on handle 7, the first one NEW under key 1,
    the second one cancelled under key 2. Handle 8 has a state tracker
    that is not waitable, handle 9 one that takes no observer. *)
Definition bound_port : @world kernel :=
  mkWorld (@mkDispatcher kernel 0%N false [] [5%positive; 6%positive] (mkEvent false O))
          (<[ 5%positive := ObjObserver (mkObserver 7%positive 1%N 1%N NEW) ]>
            {[ 6%positive := ObjObserver (mkObserver 7%positive 1%N 2%N CANCELLED) ]})
          (<[ 7%positive := mkTracker true 4 [5%positive; 6%positive] ]>
            (<[ 8%positive := mkTracker false 4 [] ]>
              {[ 9%positive := mkTracker true 0 [] ]}))
          [] 0.

(** A port with clients that holds the packets 1 and 2 in its queue, the
    packet 3 being allocated and not queued. *)
Definition queued_port : @world kernel :=
  mkWorld (@mkDispatcher kernel 0%N false [1%positive; 2%positive] [] (mkEvent true O))
          (<[ 1%positive := ObjPacket packet8 ]>
            (<[ 2%positive := ObjPacket packet8 ]>
              {[ 3%positive := ObjPacket packet8 ]})) ∅ [] 0.


End Sample.

(** * Properties *)

Section Properties.
Context `{K : Kernel}.

Implicit Types (w : world) (d : IOPortDispatcher) (p packet observer : ptr).

(** ** What each step leaves alone *)

Lemma port_heap_delete p w : port (heap_delete p w) = port w.
Proof. unfold heap_delete. by destruct (heap w !! p). Qed.

Lemma port_set_payload p bytes w : port (set_payload p bytes w) = port w.
Proof. unfold set_payload. by destruct (heap w !! p) as [[]|]. Qed.

Lemma port_free_each q w : port (free_each q w) = port w.
Proof.
  revert w. induction q as [|p q IH]; intros w; simpl; [done|].
  rewrite IH. apply port_heap_delete.
Qed.

Lemma port_Alloc ac size w : port (Alloc ac size w).2 = port w.
Proof. unfold Alloc. by destruct ac. Qed.

Lemma port_Make ac data size w : port (Make ac data size w).2 = port w.
Proof.
  unfold Make. pose proof (port_Alloc ac size w) as H.
  destruct (Alloc ac size w) as [[pk|] w1]; simpl in *; [|done].
  by rewrite port_set_payload.
Qed.

Lemma port_MakeFromUser ac m data size w :
  port (MakeFromUser ac m data size w).2 = port w.
Proof.
  unfold MakeFromUser. pose proof (port_Alloc ac size w) as H.
  destruct (Alloc ac size w) as [[pk|] w1]; simpl in *; [|done].
  destruct (magenta_copy_from_user m data (get_payload pk w1) size) as [st hd].
  simpl. by rewrite port_set_payload.
Qed.

Lemma port_SetState observer s w : port (SetState observer s w).2 = port w.
Proof.
  unfold SetState. destruct (heap w !! observer) as [[pk|ob]|]; [done| |done].
  by destruct (get_state ob).
Qed.

(** ** Queue *)

(** On a port without clients [Queue] runs [IOP_Packet::Delete] on the
    packet and returns the not-available status. *)
Lemma Queue_no_clients packet w :
  no_clients_ (port w) = true ->
  ERR_NOT_AVAILABLE <> NO_ERROR ->
  Queue packet w = (ERR_NOT_AVAILABLE, Delete packet w).
Proof.
  intros Hnc Herr. unfold Queue. rewrite Hnc.
  destruct (Z.eqb_spec ERR_NOT_AVAILABLE NO_ERROR) as [E|_]; [by destruct Herr|done].
Qed.

(** On a port with clients [Queue] appends the packet and succeeds. *)
Lemma Queue_clients packet w :
  no_clients_ (port w) = false ->
  (Queue packet w).1 = NO_ERROR
  /\ packets_ (port (Queue packet w).2) = packets_ (port w) ++ [packet]
  /\ no_clients_ (port (Queue packet w).2) = false
  /\ heap (Queue packet w).2 = heap w
  /\ faults (Queue packet w).2 = faults w.
Proof.
  intros Hnc. unfold Queue. rewrite Hnc.
  destruct (event_signal_etc _ _ _) as [n e]. simpl.
  destruct (bool_of_int n); simpl; by rewrite ?Hnc.
Qed.

Lemma Delete_live packet w :
  live packet w ->
  heap (Delete packet w) = delete packet (heap w)
  /\ port (Delete packet w) = port w
  /\ faults (Delete packet w) = faults w.
Proof.
  intros [o Ho]. unfold Delete, heap_delete. by rewrite Ho.
Qed.

Lemma Delete_dead packet w :
  ~ live packet w ->
  Delete packet w = add_fault (BadDelete packet) w.
Proof.
  intros Hd. unfold Delete, heap_delete.
  destruct (heap w !! packet) eqn:E; [|done].
  destruct Hd. by eexists.
Qed.

(** C1, as the code has it: on a port whose no-more-clients flag is set,
    [Queue] returns the not-available status and leaves the port, and so
    its queue of packets, as it was; the packet is not retained by the
    port, but it is [Queue] itself that destroys it: a packet that was
    allocated is no longer allocated when [Queue] returns, and no other
    object of the heap is touched. *)
Theorem Queue_no_clients_destroys_packet packet w :
  no_clients_ (port w) = true ->
  ERR_NOT_AVAILABLE <> NO_ERROR ->
  live packet w ->
  (Queue packet w).1 = ERR_NOT_AVAILABLE
  /\ port (Queue packet w).2 = port w
  /\ packets_ (port (Queue packet w).2) = packets_ (port w)
  /\ ~ live packet (Queue packet w).2
  /\ (forall q, q <> packet -> heap (Queue packet w).2 !! q = heap w !! q).
Proof.
  intros Hnc Herr Hlive. rewrite (Queue_no_clients _ _ Hnc Herr). simpl.
  destruct (Delete_live _ _ Hlive) as (Hh & Hp & _).
  repeat split.
  - done.
  - by rewrite Hp.
  - unfold live. rewrite Hh, lookup_delete_eq. by intros [? ?].
  - intros q Hq. rewrite Hh. by apply lookup_delete_ne.
Qed.

(** C2: a packet rejected because the no-more-clients flag is set has
    been passed to [IOP_Packet::Delete] by [Queue] before the
    not-available status is returned; the caller that destroys the packet
    after this failure deletes an address that holds no object any more,
    a second destruction of the same packet. *)
Theorem Queue_rejected_packet_double_delete packet w :
  no_clients_ (port w) = true ->
  ERR_NOT_AVAILABLE <> NO_ERROR ->
  live packet w ->
  Queue packet w = (ERR_NOT_AVAILABLE, Delete packet w)
  /\ heap (Delete packet w) = delete packet (heap w)
  /\ Delete packet (Queue packet w).2
     = add_fault (BadDelete packet) (Queue packet w).2
  /\ faults (Delete packet (Queue packet w).2) = faults w ++ [BadDelete packet].
Proof.
  intros Hnc Herr Hlive.
  destruct (Delete_live _ _ Hlive) as (Hh & Hp & Hf).
  assert (Hdead : ~ live packet (Delete packet w)).
  { unfold live. rewrite Hh, lookup_delete_eq. by intros [? ?]. }
  rewrite (Queue_no_clients _ _ Hnc Herr). simpl.
  rewrite (Delete_dead _ _ Hdead). simpl. by rewrite Hf.
Qed.

(** ** Packets *)

(** What [CopyToUser] does right: into a buffer that is too small nothing
    is copied and the size is left as it was; otherwise the payload length
    is stored through the size pointer, user memory is what [copy_to_user]
    of the payload made of it, and the result is [true] exactly when
    [copy_to_user] reported success. *)
Lemma CopyToUser_effects (this : IOP_Packet) data size m :
  ((size < data_size this)%N ->
     (CopyToUser this data size m).1.2 = size
     /\ (CopyToUser this data size m).2 = m)
  /\ ((data_size this <= size)%N ->
     (CopyToUser this data size m).1.2 = data_size this
     /\ (CopyToUser this data size m).2
        = (copy_to_user m data (payload this) (data_size this)).2
     /\ ((CopyToUser this data size m).1.1 = true
         <-> (copy_to_user m data (payload this) (data_size this)).1 = NO_ERROR)).
Proof.
  unfold CopyToUser. split; intros H.
  - apply N.ltb_lt in H. by rewrite H.
  - apply N.ltb_ge in H. rewrite H.
    destruct (copy_to_user m data (payload this) (data_size this)) as [st m1].
    simpl. repeat split; intros E.
    + by apply Z.eqb_eq.
    + by apply Z.eqb_eq.
Qed.

(** C3, where the code departs from it: [CopyToUser] returns [bool], so
    the status ERR_NOT_ENOUGH_BUFFER that the too-small branch returns is
    converted to [true], the very value of a successful copy. A caller
    cannot tell the rejected call from a successful one. *)
Theorem CopyToUser_too_small_returns_true (this : IOP_Packet) data size m :
  (size < data_size this)%N ->
  ERR_NOT_ENOUGH_BUFFER <> NO_ERROR ->
  CopyToUser this data size m = (true, size, m)
  /\ (forall data' size' m',
        (data_size this <= size')%N ->
        (copy_to_user m' data' (payload this) (data_size this)).1 = NO_ERROR ->
        (CopyToUser this data' size' m').1.1 = (CopyToUser this data size m).1.1).
Proof.
  intros Hlt Herr.
  assert (E : CopyToUser this data size m = (true, size, m)).
  { unfold CopyToUser, bool_of_int. apply N.ltb_lt in Hlt. rewrite Hlt.
    destruct (Z.eqb_spec ERR_NOT_ENOUGH_BUFFER 0) as [E|_]; [by destruct Herr|done]. }
  split; [done|]. intros data' size' m' Hge Hok. rewrite E. simpl.
  by apply (CopyToUser_effects this data' size' m').
Qed.

Lemma heap_new_fresh o w :
  heap w !! (heap_new o w).1 = None.
Proof. unfold heap_new. simpl. apply not_elem_of_dom, is_fresh. Qed.

Lemma get_payload_new (pk : ptr) (pkt : IOP_Packet) w :
  get_payload pk (set_heap (<[pk := ObjPacket pkt]> (heap w)) w) = payload pkt.
Proof. unfold get_payload. simpl. by rewrite lookup_insert_eq. Qed.

Lemma set_payload_new (pk : ptr) (pkt : IOP_Packet) bytes w :
  set_payload pk bytes (set_heap (<[pk := ObjPacket pkt]> (heap w)) w)
  = set_heap (<[pk := ObjPacket (mkPacket (data_size pkt) bytes)]> (heap w)) w.
Proof.
  unfold set_payload. simpl. rewrite lookup_insert_eq. unfold set_heap. simpl.
  by rewrite insert_insert_eq.
Qed.

(** [MakeFromUser] once the allocation has succeeded. *)
Lemma MakeFromUser_allocated m data size w :
  MakeFromUser true m data size w
  = let pk := fresh (dom (heap w)) in
    let r := magenta_copy_from_user m data (uninitialized size) size in
    (if r.1 =? NO_ERROR then Some pk else None,
     set_heap (<[pk := ObjPacket
                   (mkPacket size (store_header_type MX_IO_PORT_PKT_TYPE_USER r.2))]>
                 (heap w)) w).
Proof.
  unfold MakeFromUser, Alloc, heap_new. simpl.
  rewrite get_payload_new. simpl.
  destruct (magenta_copy_from_user m data (uninitialized size) size) as [st hd].
  simpl. by rewrite set_payload_new.
Qed.

(** C4, where the code departs from it: when the allocation succeeds and
    the copy from user memory fails, [MakeFromUser] returns the null
    pointer and deletes nothing: the block it allocated, at an address
    that held no object before, is still allocated on return, and the
    caller has no pointer to it. *)
Theorem MakeFromUser_copy_failure_leaks m data size w :
  (magenta_copy_from_user m data (uninitialized size) size).1 <> NO_ERROR ->
  let pk := fresh (dom (heap w)) in
  (MakeFromUser true m data size w).1 = None
  /\ ~ live pk w
  /\ live pk (MakeFromUser true m data size w).2
  /\ (forall q, q <> pk -> heap (MakeFromUser true m data size w).2 !! q = heap w !! q)
  /\ faults (MakeFromUser true m data size w).2 = faults w.
Proof.
  intros Hfail pk.
  assert (Hnone : heap w !! pk = None) by apply not_elem_of_dom, is_fresh.
  rewrite MakeFromUser_allocated. fold pk.
  destruct (magenta_copy_from_user m data (uninitialized size) size) as [st hd].
  simpl in *.
  destruct (Z.eqb_spec st NO_ERROR) as [E|_]; [by destruct Hfail|].
  repeat split.
  - unfold live. rewrite Hnone. by intros [? ?].
  - unfold live. simpl. rewrite lookup_insert_eq. by eexists.
  - intros q Hq. by rewrite !lookup_insert_ne.
Qed.

(** ** Wait and the order of delivery *)

(** A call of [Wait] on a queue that is not empty pops its head, whatever
    the wait primitive would do. *)
Lemma Wait_pops wakes packet rest w :
  packets_ (port w) = packet :: rest ->
  Wait wakes w = (delivered packet, set_port (set_packets rest (port w)) w).
Proof.
  intros Hq. destruct wakes; simpl; unfold Wait_locked; by rewrite Hq.
Qed.

Lemma Wait_empty_blocks w :
  packets_ (port w) = [] -> Wait [] w = (WaitBlocked, w).
Proof. intros Hq. simpl. unfold Wait_locked. by rewrite Hq. Qed.

Lemma Wait_empty_wake wk rest w :
  packets_ (port w) = [] ->
  Wait (wk :: rest) w
  = if negb (wake_status wk =? NO_ERROR)
    then (WaitReturned (wake_status wk) None, run (wake_ops wk) w)
    else Wait rest (run (wake_ops wk) w).
Proof. intros Hq. simpl. unfold Wait_locked. by rewrite Hq. Qed.

(** Successful calls of [Queue] in a row append their packets in order. *)
Lemma Queue_all_appends packets w :
  ERR_NOT_AVAILABLE <> NO_ERROR ->
  Forall (eq NO_ERROR) (Queue_all packets w).1 ->
  packets_ (port (Queue_all packets w).2) = packets_ (port w) ++ packets.
Proof.
  intros Herr. revert w.
  induction packets as [|p ps IH]; intros w Hok; simpl in *.
  - by rewrite app_nil_r.
  - destruct (Queue p w) as [st w1] eqn:EQ.
    destruct (Queue_all ps w1) as [sts w2] eqn:EA. simpl in *.
    inversion Hok as [|? ? Hst Hsts]; subst.
    destruct (no_clients_ (port w)) eqn:Hnc.
    + rewrite (Queue_no_clients _ _ Hnc Herr) in EQ.
      injection EQ as E _. by destruct Herr.
    + destruct (Queue_clients p w Hnc) as (_ & Hq & _).
      rewrite EQ in Hq. simpl in Hq.
      specialize (IH w1). rewrite EA in IH. simpl in IH.
      rewrite (IH Hsts), Hq. by rewrite <- app_assoc.
Qed.

(** As many calls of [Wait] as there are packets queued return the queue,
    head first. *)
Lemma Wait_all_drains calls w :
  length calls = length (packets_ (port w)) ->
  (Wait_all calls w).1 = map delivered (packets_ (port w))
  /\ packets_ (port (Wait_all calls w).2) = [].
Proof.
  revert w. induction calls as [|wakes calls IH]; intros w Hlen; simpl in *.
  - destruct (packets_ (port w)); [done|discriminate].
  - destruct (packets_ (port w)) as [|p q] eqn:Hq; [discriminate|].
    rewrite (Wait_pops wakes p q w Hq).
    specialize (IH (set_port (set_packets q (port w)) w)).
    destruct (Wait_all calls _) as [rs w2]. simpl in *.
    injection Hlen as Hlen. destruct (IH Hlen) as [-> ->]. done.
Qed.

(** C5: after [n] successful calls [Queue p1 .. Queue pn] with no [Wait] in
    between, on a port whose queue was empty, [n] calls of [Wait] in a row
    all succeed and return [p1 .. pn] in this order. On a port that held
    packets already, the calls of [Wait] return those first and then
    [p1 .. pn], in order: [Queue] appends at the tail and [Wait] pops the
    head. *)
Theorem Queue_Wait_fifo packets calls w :
  ERR_NOT_AVAILABLE <> NO_ERROR ->
  Forall (eq NO_ERROR) (Queue_all packets w).1 ->
  (packets_ (port w) = [] ->
   length calls = length packets ->
   (Wait_all calls (Queue_all packets w).2).1 = map delivered packets)
  /\ (length calls = (length (packets_ (port w)) + length packets)%nat ->
      (Wait_all calls (Queue_all packets w).2).1
      = map delivered (packets_ (port w) ++ packets)).
Proof.
  intros Herr Hok.
  pose proof (Queue_all_appends packets w Herr Hok) as Hq.
  assert (Hgen : length calls = (length (packets_ (port w)) + length packets)%nat ->
                 (Wait_all calls (Queue_all packets w).2).1
                 = map delivered (packets_ (port w) ++ packets)).
  { intros Hlen. rewrite <- Hq. apply Wait_all_drains.
    by rewrite Hq, length_app. }
  split; [|done].
  intros Hempty Hlen. rewrite Hempty in Hgen. by apply Hgen.
Qed.

(** The status that [Wait] returns: success comes with a packet, and any
    other status is one that the wait primitive reported, and comes with
    no packet. *)
Lemma Wait_returned wakes w st pk w' :
  Wait wakes w = (WaitReturned st pk, w') ->
  (st = NO_ERROR /\ is_Some pk)
  \/ (st <> NO_ERROR /\ pk = None /\ exists wk, wk ∈ wakes /\ wake_status wk = st).
Proof.
  revert w. induction wakes as [|wk rest IH]; intros w; simpl.
  - destruct (Wait_locked w) as [[p|] w1]; [|discriminate].
    intros [= <- <- <-]. left. by eauto.
  - destruct (Wait_locked w) as [[p|] w1].
    + intros [= <- <- <-]. left. by eauto.
    + destruct (Z.eqb_spec (wake_status wk) NO_ERROR) as [E|E]; simpl.
      * intros H. destruct (IH _ H) as [?|(? & ? & wk' & Hin & ?)]; [by left|].
        right. repeat split; [done..|]. exists wk'. split; [by right|done].
      * intros [= <- <- <-]. right. repeat split; [done..|].
        exists wk. split; [by left|done].
Qed.

(** C10: when the wait primitive reports an error, [Wait] returns this
    error at once: there is no further turn of the loop, whatever the
    primitive would report next, and no packet is returned, even if some
    were queued meanwhile. Only when the primitive reports success does
    [Wait] go back to the check of the queue. *)
Theorem Wait_error_no_retry wk rest w :
  packets_ (port w) = [] ->
  (wake_status wk <> NO_ERROR ->
   Wait (wk :: rest) w = (WaitReturned (wake_status wk) None, run (wake_ops wk) w))
  /\ (wake_status wk = NO_ERROR ->
      Wait (wk :: rest) w = Wait rest (run (wake_ops wk) w))
  /\ (forall st pk w',
        Wait (wk :: rest) w = (WaitReturned st pk, w') ->
        st <> NO_ERROR ->
        pk = None /\ exists wk', wk' ∈ wk :: rest /\ wake_status wk' = st).
Proof.
  intros Hq. rewrite (Wait_empty_wake wk rest w Hq).
  repeat split.
  - intros Hst. by destruct (Z.eqb_spec (wake_status wk) NO_ERROR).
  - intros Hst. by destruct (Z.eqb_spec (wake_status wk) NO_ERROR).
  - rewrite <- (Wait_empty_wake wk rest w Hq) in H.
    destruct (Wait_returned _ _ _ _ _ H) as [[? ?]|(? & ? & ?)]; done.
  - rewrite <- (Wait_empty_wake wk rest w Hq) in H.
    destruct (Wait_returned _ _ _ _ _ H) as [[? ?]|(? & ? & ?)]; done.
Qed.

(** ** The port without clients *)

Lemma same_queue_refl d : same_queue d d.
Proof. by repeat split. Qed.

Lemma same_queue_CancelObserver observer w :
  same_queue (port w) (port (CancelObserver observer w)).
Proof. unfold CancelObserver. rewrite port_heap_delete. by repeat split. Qed.

Lemma same_queue_Bind ac handle signals key w :
  same_queue (port w) (port (Bind ac handle signals key w).2).
Proof.
  unfold Bind. destruct (trackers w !! handle) as [t|]; [|apply same_queue_refl].
  destruct (is_waitable t); simpl; [|apply same_queue_refl].
  destruct ac; simpl; [|apply same_queue_refl].
  destruct (AddObserver t _) as [result t1].
  destruct (negb (result =? NO_ERROR)); simpl; [|by repeat split].
  unfold CancelObserver. rewrite port_heap_delete. by repeat split.
Qed.

Lemma same_queue_Unbind handle key w :
  same_queue (port w) (port (Unbind handle key w).2).
Proof.
  unfold Unbind. destruct (find_if _ _ _) as [observer|]; [|apply same_queue_refl].
  pose proof (port_SetState observer UNBOUND w) as Hp.
  destruct (SetState observer UNBOUND w) as [old w1]. simpl in Hp.
  destruct (negb (bool_decide (old = NEW))); simpl.
  - rewrite Hp. apply same_queue_refl.
  - rewrite port_heap_delete.
    destruct (trackers _ !! handle); simpl; rewrite Hp; by repeat split.
Qed.

(** [Queue] on a port without clients leaves the port as it is. *)
Lemma port_Queue_no_clients packet w :
  no_clients_ (port w) = true -> port (Queue packet w).2 = port w.
Proof.
  intros Hnc. unfold Queue. rewrite Hnc.
  destruct (negb (ERR_NOT_AVAILABLE =? NO_ERROR)); simpl.
  - apply port_heap_delete.
  - done.
Qed.

Lemma no_clients_Queue packet w :
  no_clients_ (port (Queue packet w).2) = no_clients_ (port w).
Proof.
  destruct (no_clients_ (port w)) eqn:Hnc.
  - by rewrite port_Queue_no_clients.
  - by destruct (Queue_clients packet w Hnc) as (_ & _ & ? & _).
Qed.

Lemma on_zero_handles_port w :
  port (on_zero_handles w)
  = set_packets [] (set_no_clients true (port w)).
Proof. unfold on_zero_handles, FreePackets_NoLock. by rewrite port_free_each. Qed.

(** No operation but the teardown hook changes the flag. *)
Lemma no_clients_exec o w :
  o <> OpOnZeroHandles ->
  no_clients_ (port (exec o w)) = no_clients_ (port w).
Proof.
  intros Ho. destruct o; simpl.
  - apply no_clients_Queue.
  - unfold Wait_locked. by destruct (packets_ (port w)).
  - apply same_queue_Bind.
  - apply same_queue_Unbind.
  - apply same_queue_CancelObserver.
  - done.
  - by rewrite port_Make.
  - by rewrite port_MakeFromUser.
  - unfold Delete. by rewrite port_heap_delete.
Qed.

(** On a port without clients and with an empty queue, an operation
    changes neither the flag, nor the queue, nor the event. *)
Lemma exec_no_clients o w :
  no_clients_ (port w) = true ->
  packets_ (port w) = [] ->
  no_clients_ (port (exec o w)) = true
  /\ packets_ (port (exec o w)) = []
  /\ event_ (port (exec o w)) = event_ (port w).
Proof.
  intros Hnc Hq. destruct o; simpl.
  - by rewrite port_Queue_no_clients.
  - unfold Wait_locked. by rewrite Hq.
  - destruct (same_queue_Bind ac handle signals key w) as (-> & -> & -> & _). done.
  - destruct (same_queue_Unbind handle key w) as (-> & -> & -> & _). done.
  - destruct (same_queue_CancelObserver observer w) as (-> & -> & -> & _). done.
  - by rewrite on_zero_handles_port.
  - by rewrite port_Make.
  - by rewrite port_MakeFromUser.
  - unfold Delete. by rewrite port_heap_delete.
Qed.

Lemma run_no_clients ops w :
  no_clients_ (port w) = true ->
  packets_ (port w) = [] ->
  no_clients_ (port (run ops w)) = true
  /\ packets_ (port (run ops w)) = []
  /\ event_ (port (run ops w)) = event_ (port w).
Proof.
  revert w. induction ops as [|o ops IH]; intros w Hnc Hq; simpl; [done|].
  destruct (exec_no_clients o w Hnc Hq) as (Hnc1 & Hq1 & He1).
  destruct (IH _ Hnc1 Hq1) as (? & ? & He). by rewrite He.
Qed.

Lemma Wait_no_clients wakes w :
  no_clients_ (port w) = true ->
  packets_ (port w) = [] ->
  no_clients_ (port (Wait wakes w).2) = true
  /\ packets_ (port (Wait wakes w).2) = []
  /\ event_ (port (Wait wakes w).2) = event_ (port w).
Proof.
  revert w. induction wakes as [|wk rest IH]; intros w Hnc Hq.
  - by rewrite (Wait_empty_blocks w Hq).
  - rewrite (Wait_empty_wake wk rest w Hq).
    destruct (run_no_clients (wake_ops wk) w Hnc Hq) as (Hnc1 & Hq1 & He1).
    destruct (negb (wake_status wk =? NO_ERROR)); simpl; [done|].
    destruct (IH _ Hnc1 Hq1) as (? & ? & He). by rewrite He.
Qed.

Lemma reachable_no_clients_empty w :
  reachable w -> no_clients_ (port w) = true -> packets_ (port w) = [].
Proof.
  induction 1 as [w options Hctor|w o Hr IH].
  - by rewrite Hctor.
  - assert (Hcase : o = OpOnZeroHandles \/ o <> OpOnZeroHandles)
      by (destruct o; (by left) || (by right)).
    destruct Hcase as [->|Ho].
    + intros _. simpl. by rewrite on_zero_handles_port.
    + rewrite (no_clients_exec o w Ho). intros Hnc.
      by apply exec_no_clients; [|apply IH].
Qed.

(** C6: in every reachable state of the port in which the no-more-clients
    flag is set, the queue of packets is empty; the teardown hook sets the
    flag and empties the queue; and from a state with the flag set and the
    queue empty, every operation, every run of operations and every call
    of [Wait] leaves the flag set and the queue empty. *)
Theorem no_clients_queue_stays_empty :
  (forall w, reachable w -> no_clients_ (port w) = true -> packets_ (port w) = [])
  /\ (forall w, no_clients_ (port (on_zero_handles w)) = true
                /\ packets_ (port (on_zero_handles w)) = [])
  /\ (forall o w, no_clients_ (port w) = true -> packets_ (port w) = [] ->
                  no_clients_ (port (exec o w)) = true
                  /\ packets_ (port (exec o w)) = [])
  /\ (forall ops w, no_clients_ (port w) = true -> packets_ (port w) = [] ->
                    no_clients_ (port (run ops w)) = true
                    /\ packets_ (port (run ops w)) = [])
  /\ (forall wakes w, no_clients_ (port w) = true -> packets_ (port w) = [] ->
                      no_clients_ (port (Wait wakes w).2) = true
                      /\ packets_ (port (Wait wakes w).2) = [])
  /\ (forall packet w, no_clients_ (port w) = true ->
                       port (Queue packet w).2 = port w).
Proof.
  split; [exact reachable_no_clients_empty|].
  split; [intros w; by rewrite on_zero_handles_port|].
  split; [intros o w Hnc Hq; by destruct (exec_no_clients o w Hnc Hq) as (? & ? & _)|].
  split; [intros ops w Hnc Hq; by destruct (run_no_clients ops w Hnc Hq) as (? & ? & _)|].
  split; [intros wakes w Hnc Hq;
          by destruct (Wait_no_clients wakes w Hnc Hq) as (? & ? & _)|].
  exact port_Queue_no_clients.
Qed.

(** C7, as the code has it: the teardown hook leaves the event of the port
    as it was (it signals nothing), no operation performed on the port
    afterwards changes the event, and [Wait] does not look at the
    no-more-clients flag. A call of [Wait] after the teardown finds the
    queue empty and blocks in the wait primitive; it returns an error only
    when the wait primitive itself reports one, and goes back to the check
    of the queue when the primitive reports success. *)
Theorem teardown_leaves_waiters_blocked w :
  event_ (port (on_zero_handles w)) = event_ (port w)
  /\ (forall ops, event_ (port (run ops (on_zero_handles w))) = event_ (port w))
  /\ Wait [] (on_zero_handles w) = (WaitBlocked, on_zero_handles w)
  /\ (forall wk rest,
        wake_status wk <> NO_ERROR ->
        Wait (wk :: rest) (on_zero_handles w)
        = (WaitReturned (wake_status wk) None, run (wake_ops wk) (on_zero_handles w)))
  /\ (forall wk rest,
        wake_status wk = NO_ERROR ->
        Wait (wk :: rest) (on_zero_handles w)
        = Wait rest (run (wake_ops wk) (on_zero_handles w)))
  /\ (forall ops, Wait [] (run ops (on_zero_handles w))
                  = (WaitBlocked, run ops (on_zero_handles w))).
Proof.
  assert (Hnc : no_clients_ (port (on_zero_handles w)) = true)
    by (by rewrite on_zero_handles_port).
  assert (Hq : packets_ (port (on_zero_handles w)) = [])
    by (by rewrite on_zero_handles_port).
  assert (He : event_ (port (on_zero_handles w)) = event_ (port w))
    by (by rewrite on_zero_handles_port).
  split; [done|].
  split.
  { intros ops. destruct (run_no_clients ops _ Hnc Hq) as (_ & _ & ->). done. }
  split; [by apply Wait_empty_blocks|].
  split.
  { intros wk rest Hst. rewrite (Wait_empty_wake wk rest _ Hq).
    by destruct (Z.eqb_spec (wake_status wk) NO_ERROR). }
  split.
  { intros wk rest Hst. rewrite (Wait_empty_wake wk rest _ Hq).
    by destruct (Z.eqb_spec (wake_status wk) NO_ERROR). }
  intros ops. apply Wait_empty_blocks.
  by destruct (run_no_clients ops _ Hnc Hq) as (_ & ? & _).
Qed.

(** ** Observers *)

Lemma elem_of_erase (x p : ptr) (l : list ptr) : p ∈ erase x l -> p ∈ l.
Proof.
  induction l as [|y l IH]; simpl; [done|].
  destruct (decide (x = y)) as [->|Hne].
  - intros H. by right.
  - intros [->|H]%elem_of_cons; [by left|]. right. by apply IH.
Qed.

Lemma elem_of_erase_ne (x p : ptr) (l : list ptr) :
  p <> x -> p ∈ l -> p ∈ erase x l.
Proof.
  intros Hne. induction l as [|y l IH]; simpl; [done|].
  destruct (decide (x = y)) as [->|Hxy].
  - intros [->|H]%elem_of_cons; done.
  - intros [->|H]%elem_of_cons; [by left|]. right. by apply IH.
Qed.

Lemma not_elem_of_erase (x : ptr) (l : list ptr) : NoDup l -> x ∉ erase x l.
Proof.
  induction l as [|y l IH]; simpl; intros Hnd.
  - apply not_elem_of_nil.
  - apply NoDup_cons in Hnd as [Hy Hnd].
    destruct (decide (x = y)) as [->|Hxy]; [done|].
    apply not_elem_of_cons. split; [done|]. by apply IH.
Qed.

(** The search finds the first observer of the list that passes the
    test. *)
Lemma find_if_first pred (h : gmap ptr object) (before after : list ptr) p ob :
  h !! p = Some (ObjObserver ob) ->
  pred ob = true ->
  (forall q ob', q ∈ before -> h !! q = Some (ObjObserver ob') -> pred ob' = false) ->
  find_if pred h (before ++ p :: after) = Some p.
Proof.
  intros Hp Hpred. induction before as [|q before IH]; intros Hbefore; simpl.
  - by rewrite Hp, Hpred.
  - assert (Hrest : find_if pred h (before ++ p :: after) = Some p).
    { apply IH. intros r ob' Hr. apply Hbefore. by right. }
    destruct (h !! q) as [[pk|ob']|] eqn:E; [done| |done].
    rewrite (Hbefore q ob'); [done|by left|done].
Qed.

(** The search finds an observer whenever one of the list passes the
    test. *)
Lemma find_if_complete pred (h : gmap ptr object) (l : list ptr) p ob :
  p ∈ l ->
  h !! p = Some (ObjObserver ob) ->
  pred ob = true ->
  is_Some (find_if pred h l).
Proof.
  intros Hin Hp Hpred. induction l as [|q l IH]; [by apply elem_of_nil in Hin|].
  simpl. apply elem_of_cons in Hin as [<-|Hin].
  - rewrite Hp, Hpred. by eexists.
  - destruct (h !! q) as [[pk|ob']|]; [by apply IH| |by apply IH].
    destruct (pred ob'); [by eexists|by apply IH].
Qed.

(** The search finds the one observer of the list that passes the test. *)
Lemma find_if_unique pred (h : gmap ptr object) (l : list ptr) p ob :
  p ∈ l ->
  h !! p = Some (ObjObserver ob) ->
  pred ob = true ->
  (forall q ob', q ∈ l -> q <> p -> h !! q = Some (ObjObserver ob') -> pred ob' = false) ->
  find_if pred h l = Some p.
Proof.
  intros Hin Hp Hpred. induction l as [|q l IH]; intros Huniq;
    [by apply elem_of_nil in Hin|].
  simpl. destruct (decide (q = p)) as [->|Hne].
  - by rewrite Hp, Hpred.
  - apply elem_of_cons in Hin as [->|Hin]; [done|].
    assert (Hrest : find_if pred h l = Some p).
    { apply IH; [done|]. intros r ob' Hr. apply Huniq. by right. }
    destruct (h !! q) as [[pk|ob']|] eqn:E; [done| |done].
    rewrite (Huniq q ob'); [done|by left|done|done].
Qed.

Lemma find_if_None pred (h : gmap ptr object) (l : list ptr) :
  (forall p ob, p ∈ l -> h !! p = Some (ObjObserver ob) -> pred ob = false) ->
  find_if pred h l = None.
Proof.
  induction l as [|p l IH]; intros Hall; simpl; [done|].
  assert (Hrest : find_if pred h l = None).
  { apply IH. intros q ob Hq. apply Hall. by right. }
  destruct (h !! p) as [[pk|ob]|] eqn:E; [done| |done].
  rewrite (Hall p ob); [done|by left|done].
Qed.

Lemma find_if_Some pred (h : gmap ptr object) (l : list ptr) observer :
  find_if pred h l = Some observer ->
  observer ∈ l /\ exists ob, h !! observer = Some (ObjObserver ob) /\ pred ob = true.
Proof.
  induction l as [|p l IH]; simpl; [done|].
  destruct (h !! p) as [[pk|ob]|] eqn:E.
  - intros [Hin Hob]%IH. split; [by right|done].
  - destruct (pred ob) eqn:Hp.
    + intros [= <-]. split; [by left|]. by exists ob.
    + intros [Hin Hob]%IH. split; [by right|done].
  - intros [Hin Hob]%IH. split; [by right|done].
Qed.

Lemma matches_spec handle key ob :
  matches handle key ob = true <-> get_handle ob = handle /\ get_key ob = key.
Proof.
  unfold matches. rewrite andb_true_iff, !bool_decide_eq_true.
  split; intros [? ?]; by split.
Qed.

(** C8: when the object behind the handle has no state tracker, or one
    that is not waitable, [Bind] returns the not-supported status and
    changes nothing. When the observer has been allocated and put into
    the observer set of the port and the registration with the state
    tracker then fails, [Bind] returns the status of the registration; the
    observer is erased from the set and deleted, so the port, the heap and
    the faults are as before the call, and only the state tracker is as
    the failed registration left it. *)
Theorem Bind_failure_leaves_nothing_behind ac handle signals key w :
  (trackers w !! handle = None
   \/ (exists t, trackers w !! handle = Some t /\ is_waitable t = false) ->
   Bind ac handle signals key w = (ERR_NOT_SUPPORTED, w))
  /\ (forall t result t',
        trackers w !! handle = Some t ->
        is_waitable t = true ->
        ac = true ->
        AddObserver t (fresh (dom (heap w))) = (result, t') ->
        result <> NO_ERROR ->
        Bind ac handle signals key w
        = (result, set_trackers (<[handle := t']> (trackers w)) w)
        /\ observers_ (port (Bind ac handle signals key w).2) = observers_ (port w)
        /\ ~ live (fresh (dom (heap w))) (Bind ac handle signals key w).2).
Proof.
  split.
  - intros [Hnone|(t & Ht & Hw)]; unfold Bind.
    + by rewrite Hnone.
    + by rewrite Ht, Hw.
  - intros t result t' Ht Hw -> Hadd Hres.
    assert (Hfresh : heap w !! fresh (dom (heap w)) = None)
      by apply not_elem_of_dom, is_fresh.
    assert (E : Bind true handle signals key w
                = (result, set_trackers (<[handle := t']> (trackers w)) w)).
    { unfold Bind. rewrite Ht, Hw. simpl. rewrite Hadd.
      destruct (Z.eqb_spec result NO_ERROR) as [?|_]; [done|]. simpl.
      f_equal. unfold CancelObserver, heap_delete. simpl.
      rewrite lookup_insert_eq, decide_True by done.
      rewrite delete_insert_id by done.
      destruct w as [[] ? ? ? ?]. done. }
    rewrite E. simpl. repeat split.
    unfold live. simpl. rewrite Hfresh. by intros [? ?].
Qed.

(** [SetState] on an observer that has left NEW changes nothing. *)
Lemma SetState_past_NEW observer ob s w :
  heap w !! observer = Some (ObjObserver ob) ->
  get_state ob <> NEW ->
  SetState observer s w = (get_state ob, w).
Proof.
  intros Hob Hst. unfold SetState. rewrite Hob. by destruct (get_state ob).
Qed.

Lemma SetState_NEW observer ob s w :
  heap w !! observer = Some (ObjObserver ob) ->
  get_state ob = NEW ->
  SetState observer s w
  = (NEW, set_heap (<[observer := ObjObserver
                        (mkObserver (get_handle ob) (get_signals ob) (get_key ob) s)]>
                      (heap w)) w).
Proof. intros Hob Hst. unfold SetState. by rewrite Hob, Hst. Qed.

(** [Unbind] once the search has found an observer: it changes nothing if
    the observer has left NEW, and erases and deletes it if it is NEW. *)
Lemma Unbind_found handle key w o ob :
  find_if (matches handle key) (heap w) (observers_ (port w)) = Some o ->
  heap w !! o = Some (ObjObserver ob) ->
  (get_state ob <> NEW -> Unbind handle key w = (NO_ERROR, w))
  /\ (get_state ob = NEW ->
      (Unbind handle key w).1 = NO_ERROR
      /\ observers_ (port (Unbind handle key w).2) = erase o (observers_ (port w))
      /\ heap (Unbind handle key w).2 = delete o (heap w)).
Proof.
  intros Hfind Ho. split; intros Hst; unfold Unbind; rewrite Hfind.
  - rewrite (SetState_past_NEW o ob UNBOUND w Ho Hst).
    by rewrite bool_decide_eq_false_2.
  - rewrite (SetState_NEW o ob UNBOUND w Ho Hst).
    rewrite bool_decide_eq_true_2 by done. simpl.
    destruct (trackers w !! handle); unfold heap_delete; simpl;
      rewrite lookup_insert_eq; simpl; by rewrite delete_insert_eq.
Qed.

(** C9: when no observer of the set of the port matches the handle and the
    key, [Unbind] returns the bad-handle status and changes nothing.
    For every observer of the set that matches and has left NEW already,
    [Unbind] reports success, and this observer stays in the set and is
    not touched; when it is the first match in the set (so whenever it is
    the only one), nothing at all is changed. For an observer of the set
    that matches, is NEW and is the first match, [Unbind] reports success
    after it has erased the observer from the set, removed it from the
    state tracker of the handle, and deleted it. These are the only
    changes [Unbind] ever makes: either the world is as it was, or a
    matching observer that was NEW has been erased and deleted. *)
Theorem Unbind_outcomes handle key w :
  ((forall p ob, p ∈ observers_ (port w) ->
                 heap w !! p = Some (ObjObserver ob) ->
                 ~ (get_handle ob = handle /\ get_key ob = key)) ->
   Unbind handle key w = (ERR_BAD_HANDLE, w))
  /\ (forall p ob,
        p ∈ observers_ (port w) ->
        heap w !! p = Some (ObjObserver ob) ->
        get_handle ob = handle -> get_key ob = key ->
        get_state ob <> NEW ->
        (Unbind handle key w).1 = NO_ERROR
        /\ p ∈ observers_ (port (Unbind handle key w).2)
        /\ heap (Unbind handle key w).2 !! p = Some (ObjObserver ob))
  /\ (forall before p after ob,
        observers_ (port w) = before ++ p :: after ->
        (forall q ob', q ∈ before -> heap w !! q = Some (ObjObserver ob') ->
                       ~ (get_handle ob' = handle /\ get_key ob' = key)) ->
        heap w !! p = Some (ObjObserver ob) ->
        get_handle ob = handle -> get_key ob = key ->
        get_state ob <> NEW ->
        Unbind handle key w = (NO_ERROR, w))
  /\ (forall before p after ob t,
        observers_ (port w) = before ++ p :: after ->
        (forall q ob', q ∈ before -> heap w !! q = Some (ObjObserver ob') ->
                       ~ (get_handle ob' = handle /\ get_key ob' = key)) ->
        heap w !! p = Some (ObjObserver ob) ->
        get_handle ob = handle -> get_key ob = key ->
        get_state ob = NEW ->
        trackers w !! handle = Some t ->
        Unbind handle key w
        = (NO_ERROR,
           mkWorld (set_observers (erase p (observers_ (port w))) (port w))
                   (delete p (heap w))
                   (<[handle := RemoveObserver t p]> (trackers w))
                   (faults w) (yields w)))
  /\ ((Unbind handle key w).2 = w
      \/ exists p ob,
           p ∈ observers_ (port w)
           /\ heap w !! p = Some (ObjObserver ob)
           /\ get_handle ob = handle /\ get_key ob = key
           /\ get_state ob = NEW
           /\ observers_ (port (Unbind handle key w).2) = erase p (observers_ (port w))
           /\ heap (Unbind handle key w).2 = delete p (heap w)).
Proof.
  assert (Hfirst : forall before p after ob,
             observers_ (port w) = before ++ p :: after ->
             (forall q ob', q ∈ before -> heap w !! q = Some (ObjObserver ob') ->
                            ~ (get_handle ob' = handle /\ get_key ob' = key)) ->
             heap w !! p = Some (ObjObserver ob) ->
             get_handle ob = handle -> get_key ob = key ->
             find_if (matches handle key) (heap w) (observers_ (port w)) = Some p).
  { intros before p after ob Hl Hbefore Hp Hh Hk. rewrite Hl.
    apply (find_if_first _ _ before after p ob Hp).
    - by apply matches_spec.
    - intros q ob' Hq Hob'. destruct (matches handle key ob') eqn:E; [|done].
      destruct (Hbefore q ob' Hq Hob'). by apply matches_spec. }
  split; [|split; [|split; [|split]]].
  - intros Hnone. unfold Unbind. rewrite find_if_None; [done|].
    intros p ob Hin Hob. destruct (matches handle key ob) eqn:E; [|done].
    destruct (Hnone p ob Hin Hob). by apply matches_spec.
  - intros p ob Hin Hp Hh Hk Hst.
    assert (Hm : matches handle key ob = true) by (by apply matches_spec).
    destruct (find_if_complete _ _ _ p ob Hin Hp Hm) as [o Hfind].
    destruct (find_if_Some _ _ _ _ Hfind) as (_ & obo & Ho & _).
    destruct (Unbind_found handle key w o obo Hfind Ho) as [Hpast Hnew].
    destruct (decide (get_state obo = NEW)) as [Hs|Hs].
    + destruct (Hnew Hs) as (-> & -> & ->).
      assert (Hne : p <> o).
      { intros ->. rewrite Hp in Ho. injection Ho as <-. done. }
      split; [done|]. split; [by apply elem_of_erase_ne|].
      by rewrite lookup_delete_ne.
    + by rewrite (Hpast Hs).
  - intros before p after ob Hl Hbefore Hp Hh Hk Hst.
    pose proof (Hfirst before p after ob Hl Hbefore Hp Hh Hk) as Hfind.
    by apply (Unbind_found handle key w p ob Hfind Hp).
  - intros before p after ob t Hl Hbefore Hp Hh Hk Hst Ht.
    pose proof (Hfirst before p after ob Hl Hbefore Hp Hh Hk) as Hfind.
    unfold Unbind. rewrite Hfind.
    rewrite (SetState_NEW p ob UNBOUND w Hp Hst).
    rewrite bool_decide_eq_true_2 by done. simpl. rewrite Ht.
    unfold heap_delete. simpl. rewrite lookup_insert_eq.
    unfold set_heap. simpl. by rewrite delete_insert_eq.
  - destruct (find_if (matches handle key) (heap w) (observers_ (port w)))
      as [o|] eqn:Hfind.
    + destruct (find_if_Some _ _ _ _ Hfind) as (Hin & obo & Ho & Hm).
      apply matches_spec in Hm as [Hh Hk].
      destruct (Unbind_found handle key w o obo Hfind Ho) as [Hpast Hnew].
      destruct (decide (get_state obo = NEW)) as [Hs|Hs].
      * right. exists o, obo. destruct (Hnew Hs) as (_ & Hobs & Hheap). done.
      * left. by rewrite (Hpast Hs).
    + left. unfold Unbind. by rewrite Hfind.
Qed.

(** * Further properties of the code *)

(** ** Packets: creation and copy-out *)

(** [Make] once the allocation has succeeded. *)
Lemma Make_allocated data size w :
  Make true data size w
  = let pk := fresh (dom (heap w)) in
    (Some pk,
     set_heap (<[pk := ObjPacket (mkPacket size (take (N.to_nat size) data))]> (heap w)) w).
Proof.
  unfold Make, Alloc, heap_new. simpl. by rewrite set_payload_new.
Qed.

(** X1: for a size at which the block that [Alloc] asks for holds the
    object and the payload, and a source of at least [size] bytes, a
    successful [Make] returns an address that held no object; the packet
    there has the payload length [size] and the first [size] bytes of the
    source as its payload; no other object and no field of the port
    changes. A later [CopyToUser] of this packet into a buffer that is
    large enough stores [size] through the size pointer and hands these
    very bytes to [copy_to_user]. *)
Theorem Make_then_CopyToUser data size w dst c m :
  block_fits size ->
  (N.to_nat size <= length data)%nat ->
  (size <= c)%N ->
  let pk := fresh (dom (heap w)) in
  let made := mkPacket size (take (N.to_nat size) data) in
  (Make true data size w).1 = Some pk
  /\ heap w !! pk = None
  /\ heap (Make true data size w).2 !! pk = Some (ObjPacket made)
  /\ (forall q, q <> pk -> heap (Make true data size w).2 !! q = heap w !! q)
  /\ port (Make true data size w).2 = port w
  /\ length (payload made) = N.to_nat size
  /\ CopyToUser made dst c m
     = let r := copy_to_user m dst (take (N.to_nat size) data) size in
       (r.1 =? NO_ERROR, size, r.2).
Proof.
  intros _ Hlen Hc pk made. rewrite Make_allocated. fold pk. simpl.
  repeat split.
  - apply not_elem_of_dom, is_fresh.
  - by rewrite lookup_insert_eq.
  - intros q Hq. by rewrite lookup_insert_ne.
  - rewrite length_take. lia.
  - unfold CopyToUser. simpl. apply N.ltb_ge in Hc. rewrite Hc.
    by destruct (copy_to_user m dst (take (N.to_nat size) data) size).
Qed.

(** X3: the size test of [CopyToUser] is strict: a buffer of exactly the
    payload length is accepted, and a packet with an empty payload is
    accepted with any buffer; in both cases the call goes on to
    [copy_to_user] and stores the payload length through the size
    pointer. *)
Theorem CopyToUser_exact_fit (this : IOP_Packet) data size m :
  size = data_size this \/ data_size this = 0%N ->
  CopyToUser this data size m
  = let r := copy_to_user m data (payload this) (data_size this) in
    (r.1 =? NO_ERROR, data_size this, r.2).
Proof.
  intros H. unfold CopyToUser.
  assert (Hge : (size <? data_size this)%N = false) by (apply N.ltb_ge; lia).
  rewrite Hge. by destruct (copy_to_user m data (payload this) (data_size this)).
Qed.

(** ** The port: teardown and destruction *)

Lemma heap_delete_live p w :
  live p w ->
  heap_delete p w = set_heap (delete p (heap w)) w.
Proof. intros [o Ho]. unfold heap_delete. by rewrite Ho. Qed.

(** The loop that frees a list of distinct allocated packets removes
    exactly these from the heap and records no fault. *)
Lemma free_each_distinct q w :
  NoDup q ->
  (forall p, p ∈ q -> live p w) ->
  (forall p, p ∈ q -> heap (free_each q w) !! p = None)
  /\ (forall p, p ∉ q -> heap (free_each q w) !! p = heap w !! p)
  /\ faults (free_each q w) = faults w
  /\ trackers (free_each q w) = trackers w.
Proof.
  revert w. induction q as [|p q IH]; intros w Hnd Hlive; simpl.
  - split; [|done]. intros p Hp. by apply not_elem_of_nil in Hp.
  - apply NoDup_cons in Hnd as [Hp Hnd].
    assert (Hlp : live p w) by (apply Hlive; by left).
    unfold Delete. rewrite (heap_delete_live p w Hlp).
    destruct (IH (set_heap (delete p (heap w)) w) Hnd) as (Hin & Hout & Hf & Ht).
    { intros r Hr. unfold live. simpl.
      rewrite lookup_delete_ne by (intros ->; done).
      apply Hlive. by right. }
    split; [|split; [|done]].
    + intros r Hr. apply elem_of_cons in Hr as [->|Hr]; [|by apply Hin].
      rewrite (Hout p Hp). simpl. apply lookup_delete_eq.
    + intros r Hr. apply not_elem_of_cons in Hr as [Hne Hr].
      rewrite (Hout r Hr). simpl. by apply lookup_delete_ne.
Qed.

(** X4: on a port whose queue holds distinct allocated packets (each
    packet is linked once), the teardown hook destroys every queued packet
    and nothing else: afterwards none of them is allocated, every other
    object of the heap is as before, no fault is recorded, and the
    observers and the state trackers are untouched. *)
Theorem on_zero_handles_frees_queue w :
  NoDup (packets_ (port w)) ->
  (forall p, p ∈ packets_ (port w) -> live p w) ->
  (forall p, p ∈ packets_ (port w) -> ~ live p (on_zero_handles w))
  /\ (forall p, p ∉ packets_ (port w) -> heap (on_zero_handles w) !! p = heap w !! p)
  /\ faults (on_zero_handles w) = faults w
  /\ observers_ (port (on_zero_handles w)) = observers_ (port w)
  /\ trackers (on_zero_handles w) = trackers w.
Proof.
  intros Hnd Hlive.
  destruct (free_each_distinct (packets_ (port w))
              (set_port (set_packets [] (set_no_clients true (port w))) w) Hnd Hlive)
    as (Hin & Hout & Hf & Ht).
  change (on_zero_handles w)
    with (free_each (packets_ (port w))
            (set_port (set_packets [] (set_no_clients true (port w))) w)).
  split; [|split; [|split; [|split]]].
  - intros p Hp [o Ho]. rewrite (Hin p Hp) in Ho. discriminate.
  - exact Hout.
  - exact Hf.
  - by rewrite port_free_each.
  - exact Ht.
Qed.

(** After the teardown a second teardown finds nothing to do. *)
Lemma on_zero_handles_closed w :
  no_clients_ (port w) = true ->
  packets_ (port w) = [] ->
  on_zero_handles w = w.
Proof.
  intros Hnc Hq. unfold on_zero_handles, FreePackets_NoLock. simpl.
  rewrite Hq. simpl. destruct w as [[o nc q obs e] h t f y]. simpl in *.
  by subst.
Qed.

(** X5: the teardown hook is idempotent: run again, it frees nothing more,
    records no fault and leaves the world as the first run left it. *)
Theorem on_zero_handles_idempotent w :
  on_zero_handles (on_zero_handles w) = on_zero_handles w.
Proof.
  apply on_zero_handles_closed; by rewrite on_zero_handles_port.
Qed.

(** X6: in the destructor the assertion on the packets always holds,
    since the packets have just been freed, and the assertion on the
    observers holds exactly when the port has no observer; after the
    teardown hook the destructor finds no packet to free and leaves the
    world as it is. *)
Theorem IOPortDispatcher_dtor_assertions w :
  (IOPortDispatcher_dtor w).1.2 = true
  /\ ((IOPortDispatcher_dtor w).1.1 = true <-> observers_ (port w) = [])
  /\ packets_ (port (IOPortDispatcher_dtor w).2) = []
  /\ (IOPortDispatcher_dtor (on_zero_handles w)).2 = on_zero_handles w.
Proof.
  unfold IOPortDispatcher_dtor, FreePackets_NoLock. simpl.
  rewrite !port_free_each. simpl. split; [done|]. split; [|split; [done|]].
  - split; [by destruct (observers_ (port w))|by intros ->].
  - rewrite on_zero_handles_port. simpl.
    destruct (on_zero_handles w) as [[o nc q obs e] h t f y] eqn:E.
    pose proof (on_zero_handles_port w) as Hp. rewrite E in Hp. simpl in Hp.
    by injection Hp as -> -> -> -> ->.
Qed.

(** ** The port: queueing and waiting *)

Lemma heap_delete_frame p w :
  port (heap_delete p w) = port w
  /\ trackers (heap_delete p w) = trackers w
  /\ yields (heap_delete p w) = yields w.
Proof. unfold heap_delete. by destruct (heap w !! p). Qed.

(** X7: [Queue] succeeds exactly when the port still has clients, and its
    only other status is the not-available one. It never changes the
    observers or the state trackers. A failed call neither signals the
    event nor yields; a successful call signals the event once and yields
    exactly when [event_signal_etc] reports that a thread was woken. *)
Theorem Queue_status packet w :
  ERR_NOT_AVAILABLE <> NO_ERROR ->
  ((Queue packet w).1 = NO_ERROR <-> no_clients_ (port w) = false)
  /\ ((Queue packet w).1 = ERR_NOT_AVAILABLE <-> no_clients_ (port w) = true)
  /\ observers_ (port (Queue packet w).2) = observers_ (port w)
  /\ trackers (Queue packet w).2 = trackers w
  /\ event_ (port (Queue packet w).2)
     = (if no_clients_ (port w) then event_ (port w)
        else (event_signal_etc (event_ (port w)) false NO_ERROR).2)
  /\ yields (Queue packet w).2
     = (if no_clients_ (port w) then yields w
        else if bool_of_int (event_signal_etc (event_ (port w)) false NO_ERROR).1
             then S (yields w) else yields w).
Proof.
  intros Herr. destruct (no_clients_ (port w)) eqn:Hnc.
  - rewrite (Queue_no_clients packet w Hnc Herr). unfold Delete.
    destruct (heap_delete_frame packet w) as (Hp & Ht & Hy).
    cbn [fst snd]. rewrite Hp, Ht, Hy.
    split; [split; [by intros ?|done]|]. done.
  - unfold Queue. rewrite Hnc. simpl.
    destruct (event_signal_etc (event_ (port w)) false NO_ERROR) as [n e]. simpl.
    split; [done|]. split; [split; [by intros ?%eq_sym|done]|].
    by destruct (bool_of_int n).
Qed.

(** X8: a thread blocked in [Wait] on an empty queue, woken with success
    after another thread has queued a packet on the port, returns this
    packet and leaves the queue empty; the packet stays allocated, it now
    belongs to the caller of [Wait]. *)
Theorem Wait_woken_by_Queue packet rest w :
  packets_ (port w) = [] ->
  no_clients_ (port w) = false ->
  (Wait (mkWakeup NO_ERROR [OpQueue packet] :: rest) w).1 = delivered packet
  /\ packets_ (port (Wait (mkWakeup NO_ERROR [OpQueue packet] :: rest) w).2) = []
  /\ heap (Wait (mkWakeup NO_ERROR [OpQueue packet] :: rest) w).2 = heap w
  /\ faults (Wait (mkWakeup NO_ERROR [OpQueue packet] :: rest) w).2 = faults w.
Proof.
  intros Hq Hnc. rewrite (Wait_empty_wake _ rest w Hq). simpl.
  destruct (Queue_clients packet w Hnc) as (_ & Hq1 & _ & Hh & Hf).
  rewrite Hq in Hq1. simpl in Hq1.
  rewrite (Wait_pops rest packet [] _ Hq1). simpl. by rewrite Hh, Hf.
Qed.

(** X9: spurious wake-ups do not make [Wait] return: however often the
    wait primitive returns success while nothing was queued, the call is
    still waiting, with the queue, the flag, the observers, the heap and
    the faults as they were; and an error that the primitive reports
    after them is returned as it is, with no packet. *)
Theorem Wait_spurious_wakeups n wk rest w :
  packets_ (port w) = [] ->
  wake_status wk <> NO_ERROR ->
  (Wait (replicate n (mkWakeup NO_ERROR [])) w).1 = WaitBlocked
  /\ packets_ (port (Wait (replicate n (mkWakeup NO_ERROR [])) w).2) = []
  /\ no_clients_ (port (Wait (replicate n (mkWakeup NO_ERROR [])) w).2)
     = no_clients_ (port w)
  /\ observers_ (port (Wait (replicate n (mkWakeup NO_ERROR [])) w).2)
     = observers_ (port w)
  /\ heap (Wait (replicate n (mkWakeup NO_ERROR [])) w).2 = heap w
  /\ faults (Wait (replicate n (mkWakeup NO_ERROR [])) w).2 = faults w
  /\ (Wait (replicate n (mkWakeup NO_ERROR []) ++ wk :: rest) w).1
     = WaitReturned (wake_status wk) None.
Proof.
  intros Hq Hst.
  assert (H1 : forall k, Wait (replicate k (mkWakeup NO_ERROR [])) w = (WaitBlocked, w)).
  { induction k as [|k IH]; simpl replicate.
    - by apply Wait_empty_blocks.
    - rewrite (Wait_empty_wake _ _ w Hq). simpl. exact IH. }
  assert (H2 : forall k, Wait (replicate k (mkWakeup NO_ERROR []) ++ wk :: rest) w
                         = (WaitReturned (wake_status wk) None, run (wake_ops wk) w)).
  { induction k as [|k IH]; simpl replicate.
    - rewrite app_nil_l, (Wait_empty_wake wk rest w Hq).
      by destruct (Z.eqb_spec (wake_status wk) NO_ERROR).
    - rewrite <- app_comm_cons, (Wait_empty_wake _ _ w Hq). simpl. exact IH. }
  rewrite H1, H2. simpl. by rewrite Hq.
Qed.

(** X10: the life of a packet on a live port with an empty queue, for a
    size at which the block that [Alloc] asks for holds the object and
    the payload and a source of at least [size] bytes: made, queued,
    returned by the next [Wait] and deleted by its receiver, the packet
    leaves the heap and the queue as they were before it was made, and no
    fault is recorded. *)
Theorem packet_lifecycle data size wakes w :
  block_fits size ->
  (N.to_nat size <= length data)%nat ->
  no_clients_ (port w) = false ->
  packets_ (port w) = [] ->
  let pk := fresh (dom (heap w)) in
  let w1 := (Make true data size w).2 in
  let w2 := (Queue pk w1).2 in
  let w3 := (Wait wakes w2).2 in
  (Make true data size w).1 = Some pk
  /\ (Queue pk w1).1 = NO_ERROR
  /\ (Wait wakes w2).1 = delivered pk
  /\ heap (Delete pk w3) = heap w
  /\ packets_ (port (Delete pk w3)) = []
  /\ faults (Delete pk w3) = faults w.
Proof.
  intros _ _ Hnc Hq pk w1 w2 w3.
  assert (Hfresh : heap w !! pk = None) by apply not_elem_of_dom, is_fresh.
  assert (E1 : Make true data size w
               = (Some pk, set_heap (<[pk := ObjPacket
                    (mkPacket size (take (N.to_nat size) data))]> (heap w)) w))
    by apply Make_allocated.
  assert (Hnc1 : no_clients_ (port w1) = false)
    by (unfold w1; by rewrite port_Make).
  destruct (Queue_clients pk w1 Hnc1) as (Hst & Hq2 & _ & Hh2 & Hf2).
  fold w2 in Hq2, Hh2, Hf2.
  assert (Hq2' : packets_ (port w2) = [pk]).
  { rewrite Hq2. unfold w1. by rewrite port_Make, Hq. }
  pose proof (Wait_pops wakes pk [] w2 Hq2') as E3.
  assert (Hh3 : heap w3 = <[pk := ObjPacket
                   (mkPacket size (take (N.to_nat size) data))]> (heap w)).
  { unfold w3. rewrite E3. simpl. rewrite Hh2. unfold w1. by rewrite E1. }
  assert (Hf3 : faults w3 = faults w).
  { unfold w3. rewrite E3. simpl. rewrite Hf2. unfold w1. by rewrite E1. }
  assert (Hp3 : packets_ (port w3) = []).
  { unfold w3. by rewrite E3. }
  assert (Hlive : live pk w3).
  { unfold live. rewrite Hh3, lookup_insert_eq. by eexists. }
  split; [by rewrite E1|]. split; [done|]. split; [by rewrite E3|].
  unfold Delete. rewrite (heap_delete_live pk w3 Hlive).
  cbn [heap port faults set_heap]. rewrite Hh3, delete_insert_id by done. done.
Qed.

(** X11: a packet made and then queued on a port without clients is not
    leaked, for a size at which the block that [Alloc] asks for holds the
    object and the payload and a source of at least [size] bytes:
    [Queue] reports the not-available status and has deleted the packet,
    so the heap is as it was before the packet was made and no fault is
    recorded. *)
Theorem rejected_packet_not_leaked data size w :
  block_fits size ->
  (N.to_nat size <= length data)%nat ->
  no_clients_ (port w) = true ->
  ERR_NOT_AVAILABLE <> NO_ERROR ->
  let pk := fresh (dom (heap w)) in
  let w1 := (Make true data size w).2 in
  (Queue pk w1).1 = ERR_NOT_AVAILABLE
  /\ heap (Queue pk w1).2 = heap w
  /\ port (Queue pk w1).2 = port w
  /\ faults (Queue pk w1).2 = faults w.
Proof.
  intros _ _ Hnc Herr pk w1.
  assert (Hfresh : heap w !! pk = None) by apply not_elem_of_dom, is_fresh.
  assert (E1 : w1 = set_heap (<[pk := ObjPacket
                    (mkPacket size (take (N.to_nat size) data))]> (heap w)) w)
    by (unfold w1; by rewrite Make_allocated).
  assert (Hnc1 : no_clients_ (port w1) = true) by (by rewrite E1).
  assert (Hlive : live pk w1).
  { unfold live. rewrite E1. simpl. rewrite lookup_insert_eq. by eexists. }
  rewrite (Queue_no_clients pk w1 Hnc1 Herr). unfold Delete.
  rewrite (heap_delete_live pk w1 Hlive). cbn [fst snd heap port faults set_heap].
  rewrite E1. simpl. by rewrite delete_insert_id.
Qed.

(** X12: [Create] fails with the no-memory status and no dispatcher when
    the allocation fails, and otherwise succeeds with a dispatcher and the
    rights to duplicate, transfer, read and write. The port it returns is
    a reachable state whose first [Wait] blocks, on which every [Unbind]
    fails with the bad-handle status, whose destructor would find both
    assertions true, and which accepts a first packet that the next
    [Wait] returns. *)
Theorem Create_then_use options :
  Create false options = (ERR_NO_MEMORY, None)
  /\ exists d,
       Create true options
       = (NO_ERROR,
          Some (d, Z.lor (Z.lor (Z.lor MX_RIGHT_DUPLICATE MX_RIGHT_TRANSFER)
                            MX_RIGHT_READ) MX_RIGHT_WRITE))
       /\ forall w,
            port w = d ->
            reachable w
            /\ (Wait [] w).1 = WaitBlocked
            /\ (forall handle key, Unbind handle key w = (ERR_BAD_HANDLE, w))
            /\ (IOPortDispatcher_dtor w).1 = (true, true)
            /\ (forall packet wakes,
                  (Queue packet w).1 = NO_ERROR
                  /\ (Wait wakes (Queue packet w).2).1 = delivered packet).
Proof.
  split; [reflexivity|]. exists (IOPortDispatcher_ctor options).
  split; [reflexivity|]. intros w Hw.
  assert (Hnc : no_clients_ (port w) = false) by (by rewrite Hw).
  assert (Hq : packets_ (port w) = []) by (by rewrite Hw).
  split; [by apply (reachable_ctor w options)|].
  split; [by rewrite (Wait_empty_blocks w Hq)|].
  split; [intros handle key; unfold Unbind; by rewrite Hw|].
  split.
  { unfold IOPortDispatcher_dtor, FreePackets_NoLock.
    rewrite port_free_each. simpl. by rewrite Hw. }
  intros packet wakes.
  destruct (Queue_clients packet w Hnc) as (Hst & Hq1 & _).
  rewrite Hq in Hq1. simpl in Hq1.
  split; [done|]. by rewrite (Wait_pops wakes packet [] _ Hq1).
Qed.

(** ** Observers: binding and unbinding *)

(** [Bind] when every step succeeds. *)
Lemma Bind_success handle signals key w t t' :
  trackers w !! handle = Some t ->
  is_waitable t = true ->
  AddObserver t (fresh (dom (heap w))) = (NO_ERROR, t') ->
  Bind true handle signals key w
  = (NO_ERROR,
     mkWorld (set_observers (fresh (dom (heap w)) :: observers_ (port w)) (port w))
             (<[fresh (dom (heap w)) := ObjObserver (mkObserver handle signals key NEW)]>
                (heap w))
             (<[handle := t']> (trackers w))
             (faults w) (yields w)).
Proof.
  intros Ht Hw Hadd. unfold Bind. rewrite Ht, Hw. simpl. by rewrite Hadd.
Qed.

(** [Bind] when the registration with the state tracker fails. *)
Lemma Bind_registration_failure handle signals key w t result t' :
  trackers w !! handle = Some t ->
  is_waitable t = true ->
  AddObserver t (fresh (dom (heap w))) = (result, t') ->
  result <> NO_ERROR ->
  Bind true handle signals key w
  = (result, set_trackers (<[handle := t']> (trackers w)) w).
Proof.
  intros Ht Hw Hadd Hres.
  assert (Hfresh : heap w !! fresh (dom (heap w)) = None)
    by apply not_elem_of_dom, is_fresh.
  unfold Bind. rewrite Ht, Hw. simpl. rewrite Hadd.
  destruct (Z.eqb_spec result NO_ERROR) as [?|_]; [done|]. simpl.
  f_equal. unfold CancelObserver, heap_delete. simpl.
  rewrite lookup_insert_eq, decide_True by done.
  rewrite delete_insert_id by done.
  destruct w as [[] ? ? ? ?]. done.
Qed.

(** X13: whatever makes [Bind] fail, be it a handle that cannot be waited
    on, the allocation, or the registration with the state tracker, the
    failed call leaves the port, the heap and the faults as they were: no
    observer stays behind in the set or in memory. Its status is then the
    not-supported one, the no-memory one, or the one that the state
    tracker returned. *)
Theorem Bind_failure_atomic ac handle signals key w :
  (Bind ac handle signals key w).1 <> NO_ERROR ->
  port (Bind ac handle signals key w).2 = port w
  /\ heap (Bind ac handle signals key w).2 = heap w
  /\ faults (Bind ac handle signals key w).2 = faults w
  /\ ((Bind ac handle signals key w).1 = ERR_NOT_SUPPORTED
      \/ (Bind ac handle signals key w).1 = ERR_NO_MEMORY
      \/ exists t, trackers w !! handle = Some t
                   /\ (Bind ac handle signals key w).1
                      = (AddObserver t (fresh (dom (heap w)))).1).
Proof.
  destruct (trackers w !! handle) as [t|] eqn:Ht.
  2:{ intros _. unfold Bind. rewrite Ht. simpl.
      split; [done|]. split; [done|]. split; [done|]. by left. }
  destruct (is_waitable t) eqn:Hw.
  2:{ intros _. unfold Bind. rewrite Ht, Hw. simpl.
      split; [done|]. split; [done|]. split; [done|]. by left. }
  destruct ac.
  2:{ intros _. unfold Bind. rewrite Ht, Hw. simpl.
      split; [done|]. split; [done|]. split; [done|]. right. by left. }
  destruct (AddObserver t (fresh (dom (heap w)))) as [result t'] eqn:Hadd.
  destruct (Z.eq_dec result NO_ERROR) as [->|Hres].
  - rewrite (Bind_success handle signals key w t t' Ht Hw Hadd). simpl.
    intros H. by destruct H.
  - intros _.
    rewrite (Bind_registration_failure handle signals key w t result t'
               Ht Hw Hadd Hres).
    simpl. split; [done|]. split; [done|]. split; [done|].
    right. right. exists t. by rewrite Hadd.
Qed.

(** [Unbind] on an observer that is NEW. *)
Lemma Unbind_NEW handle key w observer ob t :
  find_if (matches handle key) (heap w) (observers_ (port w)) = Some observer ->
  heap w !! observer = Some (ObjObserver ob) ->
  get_state ob = NEW ->
  trackers w !! handle = Some t ->
  Unbind handle key w
  = (NO_ERROR,
     mkWorld (set_observers (erase observer (observers_ (port w))) (port w))
             (delete observer (heap w))
             (<[handle := RemoveObserver t observer]> (trackers w))
             (faults w) (yields w)).
Proof.
  intros Hfind Hob Hst Ht. unfold Unbind. rewrite Hfind.
  rewrite (SetState_NEW observer ob UNBOUND w Hob Hst).
  rewrite bool_decide_eq_true_2 by done. simpl. rewrite Ht.
  unfold heap_delete. simpl. rewrite lookup_insert_eq.
  unfold set_heap. simpl. by rewrite delete_insert_eq.
Qed.

Lemma matches_refl handle signals key s :
  matches handle key (mkObserver handle signals key s) = true.
Proof. apply matches_spec. by split. Qed.

(** X14: a successful [Bind] puts a NEW observer for the handle and the
    key at the front of the observer set, at an address that held no
    object; [Unbind] with the same handle and key then finds this
    observer and undoes the binding: the port, the heap and the faults
    are as before [Bind], and the state tracker has seen the observer
    added and removed. *)
Theorem Bind_then_Unbind handle signals key w t t' :
  trackers w !! handle = Some t ->
  is_waitable t = true ->
  AddObserver t (fresh (dom (heap w))) = (NO_ERROR, t') ->
  let observer := fresh (dom (heap w)) in
  let w1 := (Bind true handle signals key w).2 in
  (Bind true handle signals key w).1 = NO_ERROR
  /\ observers_ (port w1) = observer :: observers_ (port w)
  /\ heap w1 !! observer = Some (ObjObserver (mkObserver handle signals key NEW))
  /\ Unbind handle key w1
     = (NO_ERROR,
        set_trackers (<[handle := RemoveObserver t' observer]> (trackers w)) w).
Proof.
  intros Ht Hw Hadd observer w1.
  assert (Hfresh : heap w !! observer = None) by apply not_elem_of_dom, is_fresh.
  assert (E : Bind true handle signals key w = (NO_ERROR, w1)).
  { unfold w1. by rewrite (Bind_success handle signals key w t t' Ht Hw Hadd). }
  assert (E1 : w1 = mkWorld
                 (set_observers (observer :: observers_ (port w)) (port w))
                 (<[observer := ObjObserver (mkObserver handle signals key NEW)]> (heap w))
                 (<[handle := t']> (trackers w)) (faults w) (yields w)).
  { unfold w1. by rewrite (Bind_success handle signals key w t t' Ht Hw Hadd). }
  split; [by rewrite E|]. split; [by rewrite E1|].
  split; [rewrite E1; simpl; by rewrite lookup_insert_eq|].
  rewrite (Unbind_NEW handle key w1 observer (mkObserver handle signals key NEW) t').
  - rewrite E1. simpl. rewrite decide_True by done.
    rewrite delete_insert_id by done. rewrite insert_insert_eq.
    destruct w as [[] ? ? ? ?]. done.
  - rewrite E1. simpl. rewrite lookup_insert_eq. by rewrite matches_refl.
  - rewrite E1. simpl. by rewrite lookup_insert_eq.
  - done.
  - rewrite E1. simpl. by rewrite lookup_insert_eq.
Qed.

(** X15: the same handle and key can be bound twice: the second [Bind]
    succeeds as well and the set then holds two distinct observers for the
    pair, the later one in front. [Unbind] for the pair removes the later
    observer only; the earlier one stays in the set, allocated and NEW. *)
Theorem Bind_twice_same_key handle signals signals' key w t t1 t2 :
  trackers w !! handle = Some t ->
  is_waitable t = true ->
  AddObserver t (fresh (dom (heap w))) = (NO_ERROR, t1) ->
  let o1 := fresh (dom (heap w)) in
  let w1 := (Bind true handle signals key w).2 in
  let o2 := fresh (dom (heap w1)) in
  let w2 := (Bind true handle signals' key w1).2 in
  is_waitable t1 = true ->
  AddObserver t1 o2 = (NO_ERROR, t2) ->
  (Bind true handle signals' key w1).1 = NO_ERROR
  /\ o1 <> o2
  /\ observers_ (port w2) = o2 :: o1 :: observers_ (port w)
  /\ (Unbind handle key w2).1 = NO_ERROR
  /\ observers_ (port (Unbind handle key w2).2) = o1 :: observers_ (port w)
  /\ heap (Unbind handle key w2).2 !! o1
     = Some (ObjObserver (mkObserver handle signals key NEW))
  /\ heap (Unbind handle key w2).2 !! o2 = None.
Proof.
  intros Ht Hw Hadd1 o1 w1 o2 w2 Hw1 Hadd2.
  assert (E1 : w1 = mkWorld
                 (set_observers (o1 :: observers_ (port w)) (port w))
                 (<[o1 := ObjObserver (mkObserver handle signals key NEW)]> (heap w))
                 (<[handle := t1]> (trackers w)) (faults w) (yields w)).
  { unfold w1. by rewrite (Bind_success handle signals key w t t1 Ht Hw Hadd1). }
  assert (Ht1 : trackers w1 !! handle = Some t1).
  { rewrite E1. simpl. by rewrite lookup_insert_eq. }
  assert (Hne : o1 <> o2).
  { intros Heq. assert (Hin : o1 ∈ dom (heap w1)).
    { rewrite E1. simpl. apply elem_of_dom. rewrite lookup_insert_eq. by eexists. }
    rewrite Heq in Hin. by apply (is_fresh (dom (heap w1))). }
  pose proof (Bind_success handle signals' key w1 t1 t2 Ht1 Hw1 Hadd2) as E2.
  fold o2 in E2.
  assert (E2' : w2 = mkWorld
                  (set_observers (o2 :: observers_ (port w1)) (port w1))
                  (<[o2 := ObjObserver (mkObserver handle signals' key NEW)]> (heap w1))
                  (<[handle := t2]> (trackers w1)) (faults w1) (yields w1)).
  { unfold w2. by rewrite E2. }
  split; [by rewrite E2|]. split; [done|].
  split; [rewrite E2', E1; done|].
  rewrite (Unbind_NEW handle key w2 o2 (mkObserver handle signals' key NEW) t2).
  - simpl. rewrite E2'. simpl. rewrite decide_True by done.
    split; [done|]. split; [by rewrite E1|].
    split; [|apply lookup_delete_eq].
    rewrite lookup_delete_ne, lookup_insert_ne by done.
    rewrite E1. simpl. by rewrite lookup_insert_eq.
  - rewrite E2'. simpl. rewrite lookup_insert_eq. by rewrite matches_refl.
  - rewrite E2'. simpl. by rewrite lookup_insert_eq.
  - done.
  - rewrite E2'. simpl. by rewrite lookup_insert_eq.
Qed.

(** X16: [CancelObserver] on an allocated observer of a set without
    repetition takes this observer, and no other, out of the set and
    deletes it without a fault; the packets, the flag and the event are
    untouched. A second [CancelObserver] on the same observer deletes an
    address that holds no object any more: only the winner of the race
    between [Unbind] and the cancellation may call it. *)
Theorem CancelObserver_once observer w :
  NoDup (observers_ (port w)) ->
  live observer w ->
  (observer ∉ observers_ (port (CancelObserver observer w)))
  /\ (forall p, p <> observer ->
        (p ∈ observers_ (port (CancelObserver observer w)) <-> p ∈ observers_ (port w)))
  /\ ~ live observer (CancelObserver observer w)
  /\ same_queue (port w) (port (CancelObserver observer w))
  /\ faults (CancelObserver observer w) = faults w
  /\ faults (CancelObserver observer (CancelObserver observer w))
     = faults w ++ [BadDelete observer].
Proof.
  intros Hnd Hlive.
  assert (E : CancelObserver observer w
              = mkWorld (set_observers (erase observer (observers_ (port w))) (port w))
                        (delete observer (heap w)) (trackers w) (faults w) (yields w)).
  { unfold CancelObserver. rewrite heap_delete_live; [done|].
    destruct Hlive as [o Ho]. by exists o. }
  assert (E2 : CancelObserver observer (CancelObserver observer w)
               = add_fault (BadDelete observer)
                   (set_port (set_observers
                                (erase observer (observers_ (port (CancelObserver observer w))))
                                (port (CancelObserver observer w)))
                             (CancelObserver observer w))).
  { assert (Hdead : heap (CancelObserver observer w) !! observer = None)
      by (rewrite E; apply lookup_delete_eq).
    unfold CancelObserver at 1. unfold heap_delete.
    cbn [heap set_port]. by rewrite Hdead. }
  split; [rewrite E; simpl; by apply not_elem_of_erase|].
  split.
  { intros p Hp. rewrite E. simpl. split; [apply elem_of_erase|by apply elem_of_erase_ne]. }
  split.
  { rewrite E. unfold live. simpl. rewrite lookup_delete_eq. by intros [? ?]. }
  split; [apply same_queue_CancelObserver|].
  split; [by rewrite E|].
  rewrite E2. simpl. by rewrite E.
Qed.

(** X17: when exactly one observer of the set matches the handle and the
    key and it is NEW, [Unbind] succeeds once: the first call finds this
    observer and removes it, and a second [Unbind] with the same handle
    and key finds no observer, fails with the bad-handle status and
    changes nothing. *)
Theorem Unbind_twice handle key w observer ob t :
  observer ∈ observers_ (port w) ->
  heap w !! observer = Some (ObjObserver ob) ->
  get_handle ob = handle -> get_key ob = key ->
  get_state ob = NEW ->
  trackers w !! handle = Some t ->
  (forall p ob', p ∈ observers_ (port w) -> p <> observer ->
                 heap w !! p = Some (ObjObserver ob') ->
                 ~ (get_handle ob' = handle /\ get_key ob' = key)) ->
  (Unbind handle key w).1 = NO_ERROR
  /\ observers_ (port (Unbind handle key w).2) = erase observer (observers_ (port w))
  /\ heap (Unbind handle key w).2 = delete observer (heap w)
  /\ Unbind handle key (Unbind handle key w).2
     = (ERR_BAD_HANDLE, (Unbind handle key w).2).
Proof.
  intros Hin Hob Hh Hk Hst Ht Huniq.
  assert (Hother : forall p ob', p ∈ observers_ (port w) -> p <> observer ->
                     heap w !! p = Some (ObjObserver ob') ->
                     matches handle key ob' = false).
  { intros p ob' Hp Hne Hob'. destruct (matches handle key ob') eqn:E; [|done].
    destruct (Huniq p ob' Hp Hne Hob'). by apply matches_spec. }
  assert (Hfind : find_if (matches handle key) (heap w) (observers_ (port w))
                  = Some observer).
  { apply (find_if_unique _ _ _ observer ob Hin Hob); [|done].
    by apply matches_spec. }
  rewrite (Unbind_NEW handle key w observer ob t Hfind Hob Hst Ht).
  split; [done|]. split; [done|]. split; [done|].
  cbn [snd]. unfold Unbind at 1. cbn [heap port observers_ set_observers].
  rewrite find_if_None; [done|].
  intros p ob' Hp Hob'.
  destruct (decide (p = observer)) as [->|Hne].
  - by rewrite lookup_delete_eq in Hob'.
  - rewrite lookup_delete_ne in Hob' by done.
    apply (Hother p ob'); [by apply elem_of_erase in Hp|done|done].
Qed.

Lemma trackers_free_each q w : trackers (free_each q w) = trackers w.
Proof.
  revert w. induction q as [|p q IH]; intros w; simpl; [done|].
  rewrite IH. apply heap_delete_frame.
Qed.

Lemma trackers_set_payload p bytes w : trackers (set_payload p bytes w) = trackers w.
Proof. unfold set_payload. by destruct (heap w !! p) as [[]|]. Qed.

(** X18: the two sides of the port do not interfere. [Bind], [Unbind] and
    [CancelObserver] never change the flag, the queue of packets, the
    event or the options; [Queue], the locked block of [Wait], the
    teardown hook and the creation and deletion of packets never change
    the set of observers or the state trackers. *)
Theorem queue_and_observers_independent (o : op) w :
  match o with
  | OpBind _ _ _ _ | OpUnbind _ _ | OpCancelObserver _ =>
      same_queue (port w) (port (exec o w))
  | _ =>
      observers_ (port (exec o w)) = observers_ (port w)
      /\ trackers (exec o w) = trackers w
  end.
Proof.
  destruct o; simpl.
  - unfold Queue. destruct (no_clients_ (port w)); simpl.
    + destruct (negb (ERR_NOT_AVAILABLE =? NO_ERROR)); simpl; [|done].
      unfold Delete. by destruct (heap_delete_frame packet w) as (-> & -> & _).
    + destruct (event_signal_etc (event_ (port w)) false NO_ERROR) as [n e]. simpl.
      by destruct (bool_of_int n).
  - unfold Wait_locked. by destruct (packets_ (port w)).
  - apply same_queue_Bind.
  - apply same_queue_Unbind.
  - apply same_queue_CancelObserver.
  - rewrite on_zero_handles_port. split; [done|].
    unfold on_zero_handles, FreePackets_NoLock. by rewrite trackers_free_each.
  - rewrite port_Make. split; [done|].
    unfold Make, Alloc. destruct ac; simpl; [|done]. by rewrite trackers_set_payload.
  - rewrite port_MakeFromUser. split; [done|].
    unfold MakeFromUser, Alloc. destruct ac; simpl; [|done].
    destruct (magenta_copy_from_user _ _ _ _) as [st hd]. simpl.
    by rewrite trackers_set_payload.
  - unfold Delete. by destruct (heap_delete_frame packet w) as (-> & -> & _).
Qed.

Lemma exec_after_teardown o w :
  no_clients_ (port w) = true ->
  no_clients_ (port (exec o w)) = true
  /\ packets_ (port (exec o w)) `suffix_of` packets_ (port w).
Proof.
  intros Hnc. destruct o; simpl.
  - by rewrite port_Queue_no_clients.
  - unfold Wait_locked. destruct (packets_ (port w)) as [|p q] eqn:Hq; simpl.
    + by rewrite Hq.
    + split; [done|]. by apply suffix_cons_r.
  - by destruct (same_queue_Bind ac handle signals key w) as (-> & -> & _).
  - by destruct (same_queue_Unbind handle key w) as (-> & -> & _).
  - by destruct (same_queue_CancelObserver observer w) as (-> & -> & _).
  - rewrite on_zero_handles_port. simpl. split; [done|]. apply suffix_nil.
  - by rewrite port_Make.
  - by rewrite port_MakeFromUser.
  - unfold Delete. by rewrite port_heap_delete.
Qed.

(** X19: the no-more-clients flag is never cleared and, once it is set,
    no packet enters the queue any more: after any run of operations the
    flag is still set and the queue is a final part of the queue before
    the run, even when that queue was not empty. *)
Theorem no_clients_is_final ops w :
  no_clients_ (port w) = true ->
  no_clients_ (port (run ops w)) = true
  /\ packets_ (port (run ops w)) `suffix_of` packets_ (port w).
Proof.
  revert w. induction ops as [|o ops IH]; intros w Hnc; simpl; [done|].
  destruct (exec_after_teardown o w Hnc) as [Hnc1 Hsuf1].
  destruct (IH _ Hnc1) as [Hnc2 Hsuf2].
  split; [done|]. by etrans.
Qed.

End Properties.

(** * The properties at work on the sample kernel *)

Section Runs.
#[local] Existing Instance Sample.kernel.

Lemma Queue_no_clients_destroys_packet_witness :
  no_clients_ (port Sample.closed_port) = true
  /\ ERR_NOT_AVAILABLE <> NO_ERROR
  /\ live 1%positive Sample.closed_port
  /\ (Queue 1%positive Sample.closed_port).1 = ERR_NOT_AVAILABLE
  /\ packets_ (port (Queue 1%positive Sample.closed_port).2)
     = packets_ (port Sample.closed_port)
  /\ ~ live 1%positive (Queue 1%positive Sample.closed_port).2.
Proof.
  assert (H1 : no_clients_ (port Sample.closed_port) = true) by reflexivity.
  assert (H2 : ERR_NOT_AVAILABLE <> NO_ERROR) by (vm_compute; discriminate).
  assert (H3 : live 1%positive Sample.closed_port) by (by eexists).
  destruct (Queue_no_clients_destroys_packet 1%positive Sample.closed_port H1 H2 H3)
    as (Hst & _ & Hq & Hdead & _).
  repeat split; assumption.
Defined.

(** C1 as the spec words it fails: the port has no clients and the packet
    at address 1 is allocated; after the rejected [Queue] the packet is no
    longer allocated, so it is not left to the caller to destroy. *)
Lemma Queue_no_clients_keeps_packet_counterexample :
  no_clients_ (port Sample.closed_port) = true
  /\ live 1%positive Sample.closed_port
  /\ ~ ((Queue 1%positive Sample.closed_port).1 = ERR_NOT_AVAILABLE
        /\ packets_ (port (Queue 1%positive Sample.closed_port).2)
           = packets_ (port Sample.closed_port)
        /\ live 1%positive (Queue 1%positive Sample.closed_port).2).
Proof.
  split; [reflexivity|]. split; [by eexists|].
  intros (_ & _ & [o Ho]). vm_compute in Ho. discriminate.
Qed.

Lemma Queue_rejected_packet_double_delete_witness :
  no_clients_ (port Sample.closed_port) = true
  /\ ERR_NOT_AVAILABLE <> NO_ERROR
  /\ live 1%positive Sample.closed_port
  /\ Queue 1%positive Sample.closed_port
     = (ERR_NOT_AVAILABLE, Delete 1%positive Sample.closed_port)
  /\ faults (Delete 1%positive (Queue 1%positive Sample.closed_port).2)
     = faults Sample.closed_port ++ [BadDelete 1%positive].
Proof.
  assert (H1 : no_clients_ (port Sample.closed_port) = true) by reflexivity.
  assert (H2 : ERR_NOT_AVAILABLE <> NO_ERROR) by (vm_compute; discriminate).
  assert (H3 : live 1%positive Sample.closed_port) by (by eexists).
  destruct (Queue_rejected_packet_double_delete 1%positive Sample.closed_port H1 H2 H3)
    as (HQ & _ & _ & Hf).
  repeat split; assumption.
Defined.

(** A buffer of four bytes for a payload of eight: [CopyToUser] returns
    [true], as it does for a buffer of eight mapped bytes. *)
Lemma CopyToUser_too_small_returns_true_witness :
  (4 < data_size Sample.packet8)%N
  /\ ERR_NOT_ENOUGH_BUFFER <> NO_ERROR
  /\ CopyToUser Sample.packet8 0 4%N ∅ = (true, 4%N, ∅).
Proof.
  assert (H1 : (4 < data_size Sample.packet8)%N) by reflexivity.
  assert (H2 : ERR_NOT_ENOUGH_BUFFER <> NO_ERROR) by (vm_compute; discriminate).
  destruct (CopyToUser_too_small_returns_true Sample.packet8 0 4%N ∅ H1 H2) as [E _].
  repeat split; assumption.
Defined.

(** A copy from user memory in which nothing is mapped: no packet is
    returned, and the block allocated at the fresh address stays. *)
Lemma MakeFromUser_copy_failure_leaks_witness :
  (magenta_copy_from_user ∅ 0 (uninitialized 8%N) 8%N).1 <> NO_ERROR
  /\ (MakeFromUser true ∅ 0 8%N Sample.closed_port).1 = None
  /\ ~ live (fresh (dom (heap Sample.closed_port))) Sample.closed_port
  /\ live (fresh (dom (heap Sample.closed_port)))
          (MakeFromUser true ∅ 0 8%N Sample.closed_port).2.
Proof.
  assert (H1 : (magenta_copy_from_user ∅ 0 (uninitialized 8%N) 8%N).1 <> NO_ERROR)
    by (vm_compute; discriminate).
  destruct (MakeFromUser_copy_failure_leaks ∅ 0 8%N Sample.closed_port H1)
    as (Hnone & Hdead & Hlive & _).
  repeat split; assumption.
Defined.

Lemma Queue_Wait_fifo_witness :
  Forall (eq NO_ERROR)
         (Queue_all [1%positive; 2%positive; 3%positive] Sample.fresh_port).1
  /\ (Wait_all [[]; []; []]
        (Queue_all [1%positive; 2%positive; 3%positive] Sample.fresh_port).2).1
     = [delivered 1%positive; delivered 2%positive; delivered 3%positive].
Proof.
  assert (H1 : ERR_NOT_AVAILABLE <> NO_ERROR) by (vm_compute; discriminate).
  assert (H2 : Forall (eq NO_ERROR)
                 (Queue_all [1%positive; 2%positive; 3%positive] Sample.fresh_port).1)
    by (repeat constructor).
  split; [exact H2|].
  exact (proj1 (Queue_Wait_fifo [1%positive; 2%positive; 3%positive] [[]; []; []]
                  Sample.fresh_port H1 H2) eq_refl eq_refl).
Defined.

Lemma no_clients_queue_stays_empty_witness :
  packets_ (port (run [OpQueue 1%positive; OpOnZeroHandles; OpQueue 2%positive]
                      Sample.fresh_port)) = [].
Proof.
  apply (proj1 no_clients_queue_stays_empty).
  - apply (reachable_exec _ (OpQueue 2%positive)).
    apply (reachable_exec _ OpOnZeroHandles).
    apply (reachable_exec _ (OpQueue 1%positive)).
    by apply (reachable_ctor _ 0%N).
  - reflexivity.
Defined.

(** C7 as the spec words it fails: a thread is blocked on the event of the
    port; the teardown hook leaves the event unsignalled with the thread
    still blocked, and a call of [Wait] made afterwards blocks in the wait
    primitive instead of returning an error. *)
Lemma teardown_wakes_waiters_counterexample :
  event_ (port Sample.waited_port) = Sample.mkEvent false 1
  /\ event_ (port (on_zero_handles Sample.waited_port)) = Sample.mkEvent false 1
  /\ (Wait [] (on_zero_handles Sample.waited_port)).1 = WaitBlocked
  /\ ~ (exists st, (Wait [] (on_zero_handles Sample.waited_port)).1
                   = WaitReturned st None).
Proof.
  repeat split. intros [st Hst]. vm_compute in Hst. discriminate.
Qed.

Lemma teardown_leaves_waiters_blocked_witness :
  Wait [] (on_zero_handles Sample.waited_port)
  = (WaitBlocked, on_zero_handles Sample.waited_port)
  /\ Wait [mkWakeup (-13) []; mkWakeup 0 []] (on_zero_handles Sample.waited_port)
     = (WaitReturned (-13) None, on_zero_handles Sample.waited_port).
Proof.
  destruct (teardown_leaves_waiters_blocked Sample.waited_port)
    as (_ & _ & Hblock & Herr & _).
  split; [exact Hblock|].
  apply (Herr (mkWakeup (-13) []) [mkWakeup 0 []]). vm_compute. discriminate.
Defined.

Lemma Bind_failure_leaves_nothing_behind_witness :
  Bind true 8%positive 1%N 1%N Sample.bound_port
  = (ERR_NOT_SUPPORTED, Sample.bound_port)
  /\ Bind true 9%positive 1%N 1%N Sample.bound_port
     = (-5, set_trackers (<[9%positive := Sample.mkTracker true 0 []]>
                            (trackers Sample.bound_port)) Sample.bound_port)
  /\ observers_ (port (Bind true 9%positive 1%N 1%N Sample.bound_port).2)
     = observers_ (port Sample.bound_port).
Proof.
  destruct (Bind_failure_leaves_nothing_behind true 8%positive 1%N 1%N Sample.bound_port)
    as [Hns _].
  destruct (Bind_failure_leaves_nothing_behind true 9%positive 1%N 1%N Sample.bound_port)
    as [_ Hfail].
  split.
  - apply Hns. right. exists (Sample.mkTracker false 4 []). by split.
  - destruct (Hfail (Sample.mkTracker true 0 []) (-5) (Sample.mkTracker true 0 []))
      as (E & Hobs & _); [reflexivity..| |by split].
    vm_compute. discriminate.
Defined.

Lemma Unbind_outcomes_witness :
  Unbind 7%positive 3%N Sample.bound_port = (ERR_BAD_HANDLE, Sample.bound_port)
  /\ Unbind 7%positive 2%N Sample.bound_port = (NO_ERROR, Sample.bound_port)
  /\ observers_ (port (Unbind 7%positive 1%N Sample.bound_port).2) = [6%positive]
  /\ ~ live 5%positive (Unbind 7%positive 1%N Sample.bound_port).2.
Proof.
  split; [|split].
  - apply (proj1 (Unbind_outcomes 7%positive 3%N Sample.bound_port)).
    intros p ob Hin Hob [_ Hkey].
    apply list_elem_of_In in Hin. simpl in Hin.
    destruct Hin as [<-|[<-|[]]]; vm_compute in Hob;
      injection Hob as <-; discriminate.
  - apply (proj1 (proj2 (proj2 (Unbind_outcomes 7%positive 2%N Sample.bound_port)))
             [5%positive] 6%positive [] (mkObserver 7%positive 1%N 2%N CANCELLED));
      [reflexivity| |reflexivity|reflexivity|reflexivity|discriminate].
    intros q ob' Hq Hob' [_ Hkey].
    apply list_elem_of_singleton in Hq as ->.
    vm_compute in Hob'. injection Hob' as <-. discriminate.
  - rewrite (proj1 (proj2 (proj2 (proj2 (Unbind_outcomes 7%positive 1%N Sample.bound_port))))
               [] 5%positive [6%positive] (mkObserver 7%positive 1%N 1%N NEW)
               (Sample.mkTracker true 4 [5%positive; 6%positive])).
    + split; [reflexivity|]. intros [o Ho]. vm_compute in Ho. discriminate.
    + reflexivity.
    + intros q ob' Hq. by apply elem_of_nil in Hq.
    + reflexivity.
    + reflexivity.
    + reflexivity.
    + reflexivity.
    + reflexivity.
Defined.

Lemma Wait_error_no_retry_witness :
  packets_ (port Sample.waited_port) = []
  /\ Wait [mkWakeup (-13) [OpQueue 1%positive]; mkWakeup 0 []] Sample.waited_port
     = (WaitReturned (-13) None, run [OpQueue 1%positive] Sample.waited_port).
Proof.
  split; [reflexivity|].
  apply (proj1 (Wait_error_no_retry (mkWakeup (-13) [OpQueue 1%positive])
                  [mkWakeup 0 []] Sample.waited_port eq_refl)).
  vm_compute. discriminate.
Defined.


(** ** The further properties on the sample kernel *)

Lemma Make_then_CopyToUser_witness :
  block_fits 8%N
  /\ (N.to_nat 8 <= length (replicate 8 Byte.x2a))%nat
  /\ (8 <= 8)%N
  /\ (Make true (replicate 8 Byte.x2a) 8%N Sample.closed_port).1
     = Some (fresh (dom (heap Sample.closed_port))).
Proof.
  assert (H1 : block_fits 8%N) by reflexivity.
  assert (H2 : (N.to_nat 8 <= length (replicate 8 Byte.x2a))%nat) by (simpl; lia).
  assert (H3 : (8 <= 8)%N) by reflexivity.
  split; [exact H1|]. split; [exact H2|]. split; [exact H3|].
  exact (proj1 (Make_then_CopyToUser (replicate 8 Byte.x2a) 8%N
                  Sample.closed_port 0 8%N ∅ H1 H2 H3)).
Defined.

Lemma CopyToUser_exact_fit_witness :
  (8%N = data_size Sample.packet8 \/ data_size Sample.packet8 = 0%N)
  /\ (CopyToUser Sample.packet8 0 8%N ∅).1.2 = 8%N.
Proof.
  assert (H : 8%N = data_size Sample.packet8 \/ data_size Sample.packet8 = 0%N)
    by (by left).
  split; [exact H|].
  rewrite (CopyToUser_exact_fit Sample.packet8 0 8%N ∅ H). reflexivity.
Defined.

Lemma on_zero_handles_frees_queue_witness :
  NoDup (packets_ (port Sample.queued_port))
  /\ ~ live 1%positive (on_zero_handles Sample.queued_port)
  /\ heap (on_zero_handles Sample.queued_port) !! 3%positive
     = heap Sample.queued_port !! 3%positive.
Proof.
  assert (H1 : NoDup (packets_ (port Sample.queued_port))).
  { simpl. apply NoDup_cons. split; [|apply NoDup_singleton].
    intros Hin. apply list_elem_of_singleton in Hin. discriminate. }
  assert (H2 : forall p, p ∈ packets_ (port Sample.queued_port) ->
                         live p Sample.queued_port).
  { simpl. intros p Hp. apply elem_of_cons in Hp as [->|Hp]; [by eexists|].
    apply list_elem_of_singleton in Hp as ->. by eexists. }
  destruct (on_zero_handles_frees_queue Sample.queued_port H1 H2)
    as (Hin & Hout & _).
  split; [exact H1|]. split.
  - apply Hin. simpl. by left.
  - apply Hout. simpl. intros Hp.
    apply elem_of_cons in Hp as [Hp|Hp]; [discriminate|].
    apply list_elem_of_singleton in Hp. discriminate.
Defined.

Lemma Queue_status_witness :
  ERR_NOT_AVAILABLE <> NO_ERROR
  /\ ((Queue 1%positive Sample.closed_port).1 = ERR_NOT_AVAILABLE
      <-> no_clients_ (port Sample.closed_port) = true).
Proof.
  assert (H : ERR_NOT_AVAILABLE <> NO_ERROR) by (vm_compute; discriminate).
  split; [exact H|].
  exact (proj1 (proj2 (Queue_status 1%positive Sample.closed_port H))).
Defined.

Lemma Wait_woken_by_Queue_witness :
  packets_ (port Sample.waited_port) = []
  /\ no_clients_ (port Sample.waited_port) = false
  /\ (Wait [mkWakeup NO_ERROR [OpQueue 1%positive]] Sample.waited_port).1
     = delivered 1%positive.
Proof.
  split; [reflexivity|]. split; [reflexivity|].
  exact (proj1 (Wait_woken_by_Queue 1%positive [] Sample.waited_port eq_refl eq_refl)).
Defined.

Lemma Wait_spurious_wakeups_witness :
  packets_ (port Sample.waited_port) = []
  /\ (Wait (replicate 3 (mkWakeup NO_ERROR [])) Sample.waited_port).1 = WaitBlocked
  /\ (Wait (replicate 3 (mkWakeup NO_ERROR []) ++ [mkWakeup (-13) []])
           Sample.waited_port).1
     = WaitReturned (-13) None.
Proof.
  assert (H : wake_status (mkWakeup (-13) []) <> NO_ERROR) by (vm_compute; discriminate).
  split; [reflexivity|].
  destruct (Wait_spurious_wakeups 3 (mkWakeup (-13) []) [] Sample.waited_port eq_refl H)
    as (Hb & _ & _ & _ & _ & _ & He).
  split; [exact Hb|exact He].
Defined.

Lemma packet_lifecycle_witness :
  block_fits 8%N
  /\ no_clients_ (port Sample.waited_port) = false
  /\ packets_ (port Sample.waited_port) = []
  /\ (Make true (replicate 8 Byte.x2a) 8%N Sample.waited_port).1
     = Some (fresh (dom (heap Sample.waited_port)))
  /\ heap (Delete (fresh (dom (heap Sample.waited_port)))
             (Wait [] (Queue (fresh (dom (heap Sample.waited_port)))
                             (Make true (replicate 8 Byte.x2a) 8%N
                                   Sample.waited_port).2).2).2)
     = heap Sample.waited_port.
Proof.
  assert (H1 : block_fits 8%N) by reflexivity.
  assert (H2 : (N.to_nat 8 <= length (replicate 8 Byte.x2a))%nat) by (simpl; lia).
  split; [exact H1|]. split; [reflexivity|]. split; [reflexivity|].
  destruct (packet_lifecycle (replicate 8 Byte.x2a) 8%N [] Sample.waited_port
              H1 H2 eq_refl eq_refl) as (Hm & _ & _ & Hh & _).
  split; [exact Hm|exact Hh].
Defined.

Lemma rejected_packet_not_leaked_witness :
  block_fits 8%N
  /\ no_clients_ (port Sample.closed_port) = true
  /\ ERR_NOT_AVAILABLE <> NO_ERROR
  /\ (Queue (fresh (dom (heap Sample.closed_port)))
            (Make true (replicate 8 Byte.x2a) 8%N Sample.closed_port).2).1
     = ERR_NOT_AVAILABLE
  /\ heap (Queue (fresh (dom (heap Sample.closed_port)))
                 (Make true (replicate 8 Byte.x2a) 8%N Sample.closed_port).2).2
     = heap Sample.closed_port.
Proof.
  assert (H1 : block_fits 8%N) by reflexivity.
  assert (H2 : (N.to_nat 8 <= length (replicate 8 Byte.x2a))%nat) by (simpl; lia).
  assert (H : ERR_NOT_AVAILABLE <> NO_ERROR) by (vm_compute; discriminate).
  split; [exact H1|]. split; [reflexivity|]. split; [exact H|].
  destruct (rejected_packet_not_leaked (replicate 8 Byte.x2a) 8%N Sample.closed_port
              H1 H2 eq_refl H) as (Hst & Hh & _).
  split; [exact Hst|exact Hh].
Defined.

Lemma Create_then_use_witness :
  port Sample.fresh_port = IOPortDispatcher_ctor 0%N
  /\ (Create true 0%N).1 = NO_ERROR
  /\ (Queue 1%positive Sample.fresh_port).1 = NO_ERROR
  /\ (Wait [] (Queue 1%positive Sample.fresh_port).2).1 = delivered 1%positive.
Proof.
  split; [reflexivity|].
  destruct (proj2 (Create_then_use 0%N)) as (d & Hc & Hd).
  split; [by rewrite Hc|].
  assert (Hp : port Sample.fresh_port = d).
  { vm_compute in Hc. injection Hc as <-. reflexivity. }
  destruct (Hd Sample.fresh_port Hp) as (_ & _ & _ & _ & Huse).
  exact (Huse 1%positive []).
Defined.

Lemma Bind_failure_atomic_witness :
  (Bind true 9%positive 1%N 1%N Sample.bound_port).1 <> NO_ERROR
  /\ port (Bind true 9%positive 1%N 1%N Sample.bound_port).2 = port Sample.bound_port.
Proof.
  assert (H : (Bind true 9%positive 1%N 1%N Sample.bound_port).1 <> NO_ERROR)
    by (vm_compute; discriminate).
  split; [exact H|].
  exact (proj1 (Bind_failure_atomic true 9%positive 1%N 1%N Sample.bound_port H)).
Defined.

Lemma Bind_then_Unbind_witness :
  trackers Sample.bound_port !! 7%positive
  = Some (Sample.mkTracker true 4 [5%positive; 6%positive])
  /\ (Bind true 7%positive 1%N 9%N Sample.bound_port).1 = NO_ERROR.
Proof.
  split; [reflexivity|].
  exact (proj1 (Bind_then_Unbind 7%positive 1%N 9%N Sample.bound_port
                  (Sample.mkTracker true 4 [5%positive; 6%positive])
                  (Sample.add_observer
                     (Sample.mkTracker true 4 [5%positive; 6%positive])
                     (fresh (dom (heap Sample.bound_port)))).2
                  eq_refl eq_refl eq_refl)).
Defined.

Lemma CancelObserver_once_witness :
  NoDup (observers_ (port Sample.bound_port))
  /\ live 5%positive Sample.bound_port
  /\ (5%positive ∉ observers_ (port (CancelObserver 5%positive Sample.bound_port))).
Proof.
  assert (H1 : NoDup (observers_ (port Sample.bound_port))).
  { simpl. apply NoDup_cons. split; [|apply NoDup_singleton].
    intros Hin. apply list_elem_of_singleton in Hin. discriminate. }
  assert (H2 : live 5%positive Sample.bound_port) by (by eexists).
  split; [exact H1|]. split; [exact H2|].
  exact (proj1 (CancelObserver_once 5%positive Sample.bound_port H1 H2)).
Defined.

Lemma Unbind_twice_witness :
  5%positive ∈ observers_ (port Sample.bound_port)
  /\ (Unbind 7%positive 1%N Sample.bound_port).1 = NO_ERROR
  /\ Unbind 7%positive 1%N (Unbind 7%positive 1%N Sample.bound_port).2
     = (ERR_BAD_HANDLE, (Unbind 7%positive 1%N Sample.bound_port).2).
Proof.
  assert (Hin : 5%positive ∈ observers_ (port Sample.bound_port)) by (by left).
  split; [exact Hin|].
  destruct (Unbind_twice 7%positive 1%N Sample.bound_port 5%positive
              (mkObserver 7%positive 1%N 1%N NEW)
              (Sample.mkTracker true 4 [5%positive; 6%positive])
              Hin eq_refl eq_refl eq_refl eq_refl eq_refl) as (Hst & _ & _ & Hbad).
  - intros p ob' Hp Hne Hob [_ Hkey]. simpl in Hp.
    apply elem_of_cons in Hp as [->|Hp]; [done|].
    apply list_elem_of_singleton in Hp as ->.
    vm_compute in Hob. injection Hob as <-. discriminate.
  - split; [exact Hst|exact Hbad].
Defined.

Lemma no_clients_is_final_witness :
  no_clients_ (port Sample.closed_port) = true
  /\ no_clients_ (port (run [OpQueue 1%positive; OpWaitLocked] Sample.closed_port)) = true.
Proof.
  split; [reflexivity|].
  exact (proj1 (no_clients_is_final [OpQueue 1%positive; OpWaitLocked]
                  Sample.closed_port eq_refl)).
Defined.


Lemma Bind_twice_same_key_witness :
  trackers Sample.bound_port !! 7%positive
  = Some (Sample.mkTracker true 4 [5%positive; 6%positive])
  /\ (Bind true 7%positive 2%N 9%N
           (Bind true 7%positive 1%N 9%N Sample.bound_port).2).1 = NO_ERROR
  /\ length (observers_ (port (Bind true 7%positive 2%N 9%N
                                 (Bind true 7%positive 1%N 9%N Sample.bound_port).2).2))
     = 4%nat.
Proof.
  split; [reflexivity|].
  pose (t := Sample.mkTracker true 4 [5%positive; 6%positive]).
  pose (t1 := (Sample.add_observer t (fresh (dom (heap Sample.bound_port)))).2).
  pose (w1 := (Bind true 7%positive 1%N 9%N Sample.bound_port).2).
  pose (t2 := (Sample.add_observer t1 (fresh (dom (heap w1)))).2).
  destruct (Bind_twice_same_key 7%positive 1%N 2%N 9%N Sample.bound_port t t1 t2
              eq_refl eq_refl eq_refl eq_refl eq_refl)
    as (Hst & _ & Hobs & _).
  split; [exact Hst|]. rewrite Hobs. reflexivity.
Defined.

End Runs.
